(** * OpenClaw ACP reply pipeline: event projector and delivery coordinator

    A shallow embedding of

    - [extensions/acpx/src/runtime-internals/events.ts]
      ([parsePromptEventLine] and the functions it calls), and
    - [src/auto-reply/reply/dispatch-acp-delivery.ts]
      ([createAcpDispatchDeliveryCoordinator]),

    followed by the properties of the two components.

    Conventions.  A JavaScript string is a [string]; every [ascii] stands for
    one UTF-16 code unit below 256, so the white space removed by
    [String.prototype.trim] is the code units 9-13, 32 and 160.  [undefined]
    (an absent property, an absent optional argument) is [None]. *)

From Stdlib Require Import Ascii String.
From stdpp Require Import base option list strings pretty gmap.

(** ** JavaScript strings *)

Module Js.

Definition is_white_space (c : ascii) : bool :=
  let n := nat_of_ascii c in
  (Nat.leb 9 n && Nat.leb n 13) || Nat.eqb n 32 || Nat.eqb n 160.

Fixpoint trimStart (s : string) : string :=
  match s with
  | EmptyString => EmptyString
  | String c r => if is_white_space c then trimStart r else s
  end.

Fixpoint trimEnd (s : string) : string :=
  match s with
  | EmptyString => EmptyString
  | String c r =>
      match trimEnd r with
      | EmptyString => if is_white_space c then EmptyString else String c EmptyString
      | r' => String c r'
      end
  end.

(** [s.trim()] *)
Definition trim (s : string) : string := trimEnd (trimStart s).

(** Whether a string has nothing but white space (the empty string has). *)
Fixpoint all_white_space (s : string) : bool :=
  match s with
  | EmptyString => true
  | String c r => is_white_space c && all_white_space r
  end.

(** Truthiness of a string: [""] is falsy. *)
Definition nonempty (s : string) : bool :=
  match s with EmptyString => false | _ => true end.

(** Truthiness of [string | undefined]. *)
Definition truthy (o : option string) : bool :=
  match o with Some s => nonempty s | None => false end.

(** [a || b] on strings. *)
Definition or_else (a b : string) : string := if nonempty a then a else b.

(** [parts.join(sep)] *)
Fixpoint join (sep : string) (parts : list string) : string :=
  match parts with
  | [] => ""
  | [p] => p
  | p :: rest => p +:+ sep +:+ join sep rest
  end.

Definition newline : string := String "010" EmptyString.

(** Puts a character in front of the first piece. *)
Definition push_char (c : ascii) (pieces : list string) : list string :=
  match pieces with
  | piece :: rest => String c piece :: rest
  | [] => [String c EmptyString]
  end.

(** [value.split(/\r?\n/)]: a line feed ends a piece, and takes a carriage
    return right before it along. *)
Fixpoint split_lines (s : string) : list string :=
  match s with
  | EmptyString => [EmptyString]
  | String c r =>
      if Ascii.eqb c "010" then EmptyString :: split_lines r
      else
        match r with
        | String c' r' =>
            if Ascii.eqb c "013" && Ascii.eqb c' "010"
            then EmptyString :: split_lines r'
            else push_char c (split_lines r)
        | EmptyString => push_char c (split_lines r)
        end
  end.

(** A piece without one carriage return at its end. *)
Fixpoint strip_cr (s : string) : string :=
  match s with
  | EmptyString => EmptyString
  | String c r =>
      match r with
      | EmptyString => if Ascii.eqb c "013" then EmptyString else s
      | String _ _ => String c (strip_cr r)
      end
  end.

(** The pieces of a text that a line feed and further pieces follow: the
    last piece loses a carriage return at its end. *)
Fixpoint feed (pieces rest : list string) : list string :=
  match pieces with
  | [] => rest
  | [piece] => strip_cr piece :: rest
  | piece :: pieces' => piece :: feed pieces' rest
  end.

(** A thrown value, as far as the callers look at it:
    [error instanceof Error ? error.message : String(error)]. *)
Inductive thrown : Type :=
  | ErrorObject (message : string)
  | OtherValue (rendered : string).

Definition thrown_text (e : thrown) : string :=
  match e with ErrorObject m => m | OtherValue r => r end.

(** The result of a call that may throw (or of an awaited promise that may
    reject). *)
Inductive outcome (A : Type) : Type :=
  | Returns (a : A)
  | Throws (e : thrown).
Arguments Returns {A} a.
Arguments Throws {A} e.

End Js.

(** ** The event projector ([events.ts]) *)

Module Events.

Section Projector.

(** JavaScript's numbers and the built-ins the projector calls on them are
    taken as given: [Number.isFinite], the conversion of a number inside a
    template literal, and [JSON.parse] ([None] when it throws). *)
Context {number : Type}.

#[warnings="-register-all"]
Inductive json : Type :=
  | JNull
  | JBool (b : bool)
  | JNum (n : number)
  | JStr (s : string)
  | JArr (items : list json)
  | JObj (fields : list (string * json)).

Variable Number_isFinite : number → bool.
Variable Number_toString : number → string.
Variable JSON_parse : string → option json.

(** A record is the list of its properties in source order; reading a
    property takes the last binding of the key, as [JSON.parse] keeps the
    last of duplicate members. *)
Definition JsonObject : Type := list (string * json).

Fixpoint prop (k : string) (o : JsonObject) : option json :=
  match o with
  | [] => None
  | (k', v) :: rest =>
      match prop k rest with
      | Some v' => Some v'
      | None => if String.eqb k k' then Some v else None
      end
  end.

(** Modelled from the spec: [isRecord] of [./shared.js], a file that
    [events.ts] imports and that is not part of the sources; by its name and
    its call sites, a value is a record when it is a non-null object that is
    not an array.  The result is the record itself. *)
Definition isRecord (v : option json) : option JsonObject :=
  match v with Some (JObj o) => Some o | _ => None end.

(** Modelled from the spec: [asString] of [./shared.js] (missing as above);
    a string is kept as it is, anything else is [undefined]. *)
Definition asString (v : option json) : option string :=
  match v with Some (JStr s) => Some s | _ => None end.

(** Modelled from the spec: [asTrimmedString] of [./shared.js] (missing as
    above); a string is trimmed, anything else is [""]. *)
Definition asTrimmedString (v : option json) : string :=
  match v with Some (JStr s) => Js.trim s | _ => "" end.

(** Modelled from the spec: [asOptionalString] of [./shared.js] (missing as
    above); the trimmed string when that is not empty, else [undefined]. *)
Definition asOptionalString (v : option json) : option string :=
  let text := asTrimmedString v in
  if Js.nonempty text then Some text else None.

(** Modelled from the spec: [asOptionalBoolean] of [./shared.js] (missing
    as above); a boolean is kept, anything else is [undefined]. *)
Definition asOptionalBoolean (v : option json) : option bool :=
  match v with Some (JBool b) => Some b | _ => None end.

(** [Array.isArray(v) ? v : []] *)
Definition arrayOrEmpty (v : option json) : list json :=
  match v with Some (JArr items) => items | _ => [] end.

Definition asOptionalFiniteNumber (v : option json) : option number :=
  match v with
  | Some (JNum n) => if Number_isFinite n then Some n else None
  | _ => None
  end.

Inductive Stream : Type := output | thought.

(** [AcpRuntimeEvent]; an optional property that is left out or set to
    [undefined] is [None]. *)
Inductive AcpRuntimeEvent : Type :=
  | Text_delta (text : string) (stream : Stream) (tag : option string)
  | Tool_call (text : string) (tag : string) (toolCallId status : option string)
      (title : string)
  | Status (text : string) (tag : option string) (used size : option number)
  | Done (stopReason : option string)
  | Error (message : string) (code : option string) (retryable : option bool).

Record Structured : Type := {
  s_type : string;
  s_payload : JsonObject;
  s_tag : option string
}.

(** [...(tag ? { tag } : {})] *)
Definition keep_truthy (tag : option string) : option string :=
  if Js.truthy tag then tag else None.

Definition resolveStructuredPromptPayload (parsed : JsonObject) : Structured :=
  let flat :=
    let sessionUpdate := asOptionalString (prop "sessionUpdate" parsed) in
    if Js.truthy sessionUpdate then
      {| s_type := default "" sessionUpdate; s_payload := parsed;
         s_tag := sessionUpdate |}
    else
      let type := asTrimmedString (prop "type" parsed) in
      let tag := asOptionalString (prop "tag" parsed) in
      {| s_type := type; s_payload := parsed; s_tag := keep_truthy tag |} in
  let method := asTrimmedString (prop "method" parsed) in
  if String.eqb method "session/update" then
    match isRecord (prop "params" parsed) with
    | Some params =>
        match isRecord (prop "update" params) with
        | Some update =>
            let tag := asOptionalString (prop "sessionUpdate" update) in
            {| s_type := default "" tag; s_payload := update;
               s_tag := keep_truthy tag |}
        | None => flat
        end
    | None => flat
    end
  else flat.

Definition first_record (entries : list json) : option JsonObject :=
  match List.find (fun e => bool_decide (is_Some (isRecord (Some e)))) entries with
  | Some e => isRecord (Some e)
  | None => None
  end.

Definition resolveStatusTextForTag (tag : string) (payload : JsonObject)
  : option string :=
  if String.eqb tag "available_commands_update" then
    let commands := arrayOrEmpty (prop "availableCommands" payload) in
    Some (if Nat.ltb 0 (length commands)
          then "available commands updated (" +:+ pretty (length commands) +:+ ")"
          else "available commands updated")
  else if String.eqb tag "current_mode_update" then
    let mode :=
      Js.or_else (asTrimmedString (prop "currentModeId" payload))
        (Js.or_else (asTrimmedString (prop "modeId" payload))
           (asTrimmedString (prop "mode" payload))) in
    Some (if Js.nonempty mode then "mode updated: " +:+ mode else "mode updated")
  else if String.eqb tag "config_option_update" then
    let id :=
      Js.or_else (asTrimmedString (prop "id" payload))
        (asTrimmedString (prop "configOptionId" payload)) in
    let value :=
      Js.or_else (asTrimmedString (prop "currentValue" payload))
        (Js.or_else (asTrimmedString (prop "value" payload))
           (asTrimmedString (prop "optionValue" payload))) in
    if Js.nonempty id && Js.nonempty value then
      Some ("config updated: " +:+ id +:+ "=" +:+ value)
    else if Js.nonempty id then Some ("config updated: " +:+ id)
    else Some "config updated"
  else if String.eqb tag "session_info_update" then
    Some (Js.or_else (asTrimmedString (prop "summary" payload))
            (Js.or_else (asTrimmedString (prop "message" payload))
               "session updated"))
  else if String.eqb tag "plan" then
    let entries := arrayOrEmpty (prop "entries" payload) in
    let content :=
      match first_record entries with
      | Some first => asTrimmedString (prop "content" first)
      | None => ""
      end in
    if Js.nonempty content then Some ("plan: " +:+ content) else None
  else None.

Definition resolveTextChunk (payload : JsonObject) (stream : Stream)
    (tag : string) : option AcpRuntimeEvent :=
  let from_payload :=
    let text := asString (prop "text" payload) in
    match text with
    | Some t => if Js.nonempty t then Some (Text_delta t stream (Some tag)) else None
    | None => None
    end in
  match isRecord (prop "content" payload) with
  | Some contentRaw =>
      let contentType := asTrimmedString (prop "type" contentRaw) in
      if Js.nonempty contentType && negb (String.eqb contentType "text") then None
      else
        match asString (prop "text" contentRaw) with
        | Some t =>
            if Js.nonempty t then Some (Text_delta t stream (Some tag))
            else from_payload
        | None => from_payload
        end
  | None => from_payload
  end.

(** The [switch (type)] of [parsePromptEventLine]. *)
Definition projectStructured (type : string) (payload : JsonObject)
    (tag : option string) : option AcpRuntimeEvent :=
  let text_like (stream : Stream) :=
    match asString (prop "content" payload) with
    | Some content =>
        if Js.nonempty content
        then Some (Text_delta content stream (keep_truthy tag)) else None
    | None => None
    end in
  let tool_like (fallback_tag : string) :=
    let title := Js.or_else (asTrimmedString (prop "title" payload)) "tool call" in
    let status := asTrimmedString (prop "status" payload) in
    let toolCallId := asOptionalString (prop "toolCallId" payload) in
    Some (Tool_call
            (if Js.nonempty status then title +:+ " (" +:+ status +:+ ")" else title)
            (default fallback_tag tag)
            (keep_truthy toolCallId)
            (if Js.nonempty status then Some status else None)
            title) in
  if String.eqb type "text" then text_like output
  else if String.eqb type "thought" then text_like thought
  else if String.eqb type "tool_call" then tool_like "tool_call"
  else if String.eqb type "tool_call_update" then tool_like "tool_call_update"
  else if String.eqb type "agent_message_chunk" then
    resolveTextChunk payload output "agent_message_chunk"
  else if String.eqb type "agent_thought_chunk" then
    resolveTextChunk payload thought "agent_thought_chunk"
  else if String.eqb type "usage_update" then
    let used := asOptionalFiniteNumber (prop "used" payload) in
    let size := asOptionalFiniteNumber (prop "size" payload) in
    let text :=
      match used, size with
      | Some u, Some s =>
          "usage updated: " +:+ Number_toString u +:+ "/" +:+ Number_toString s
      | _, _ => "usage updated"
      end in
    Some (Status text (Some "usage_update") used size)
  else if String.eqb type "available_commands_update"
       || String.eqb type "current_mode_update"
       || String.eqb type "config_option_update"
       || String.eqb type "session_info_update"
       || String.eqb type "plan" then
    match resolveStatusTextForTag type payload with
    | Some text =>
        if Js.nonempty text then Some (Status text (Some type) None None) else None
    | None => None
    end
  else if String.eqb type "client_operation" then
    let method := Js.or_else (asTrimmedString (prop "method" payload)) "operation" in
    let status := asTrimmedString (prop "status" payload) in
    let summary := asTrimmedString (prop "summary" payload) in
    let text := Js.join " " (List.filter Js.nonempty [method; status; summary]) in
    if Js.nonempty text then Some (Status text (keep_truthy tag) None None) else None
  else if String.eqb type "update" then
    let update := asTrimmedString (prop "update" payload) in
    if Js.nonempty update then Some (Status update (keep_truthy tag) None None)
    else None
  else if String.eqb type "done" then
    Some (Done (asOptionalString (prop "stopReason" payload)))
  else if String.eqb type "error" then
    let message :=
      Js.or_else (asTrimmedString (prop "message" payload)) "acpx runtime error" in
    Some (Error message (asOptionalString (prop "code" payload))
            (asOptionalBoolean (prop "retryable" payload)))
  else None.

Definition parsePromptEventLine (line : string) : option AcpRuntimeEvent :=
  let trimmed := Js.trim line in
  if negb (Js.nonempty trimmed) then None
  else
    match JSON_parse trimmed with
    | None => Some (Status trimmed None None None)
    | Some parsed =>
        match isRecord (Some parsed) with
        | None => None
        | Some record =>
            let structured := resolveStructuredPromptPayload record in
            projectStructured (s_type structured) (s_payload structured)
              (s_tag structured)
        end
    end.

(** *** The other exports of [events.ts] *)

(** [AcpxErrorEvent] *)
Record AcpxErrorEvent : Type := {
  message : string;
  code : option string;
  retryable : option bool
}.

Definition toAcpxErrorEvent (value : option json) : option AcpxErrorEvent :=
  match isRecord value with
  | None => None
  | Some record =>
      if negb (String.eqb (asTrimmedString (prop "type" record)) "error") then None
      else
        Some {| message :=
                  Js.or_else (asTrimmedString (prop "message" record))
                    "acpx reported an error";
                code := asOptionalString (prop "code" record);
                retryable := asOptionalBoolean (prop "retryable" record) |}
  end.

(** What one line adds to the result of [parseJsonLines]: the body of its
    loop. *)
Definition parseJsonLine (line : string) : list JsonObject :=
  let trimmed := Js.trim line in
  if negb (Js.nonempty trimmed) then []
  else
    match JSON_parse trimmed with
    | Some parsed =>
        match isRecord (Some parsed) with
        | Some record => [record]
        | None => []
        end
    | None => []
    end.

Definition parseJsonLines (value : string) : list JsonObject :=
  flat_map parseJsonLine (Js.split_lines value).

(** *** Vocabulary of the properties *)

(** The labels of the [switch] in [parsePromptEventLine]. *)
Definition known_event_types : list string :=
  ["text"; "thought"; "tool_call"; "tool_call_update"; "agent_message_chunk";
   "agent_thought_chunk"; "usage_update"; "available_commands_update";
   "current_mode_update"; "config_option_update"; "session_info_update"; "plan";
   "client_operation"; "update"; "done"; "error"].

(** The texts of an event that are meant for display. *)
Definition display_texts (ev : AcpRuntimeEvent) : list string :=
  match ev with
  | Text_delta text _ _ => [text]
  | Tool_call text _ _ _ title => [text; title]
  | Status text _ _ _ => [text]
  | Done _ => []
  | Error message _ _ => [message]
  end.

End Projector.

Arguments json : clear implicits.
Arguments AcpRuntimeEvent : clear implicits.
Arguments JsonObject : clear implicits.
Arguments AcpxErrorEvent : clear implicits.

End Events.

(** ** The delivery coordinator ([dispatch-acp-delivery.ts]) *)

Module Delivery.

Import Js.

Inductive ReplyDispatchKind : Type := tool | block | final.

Definition kind_name (kind : ReplyDispatchKind) : string :=
  match kind with tool => "tool" | block => "block" | final => "final" end.

Definition is_tool (kind : ReplyDispatchKind) : bool :=
  match kind with tool => true | _ => false end.

Definition is_block (kind : ReplyDispatchKind) : bool :=
  match kind with block => true | _ => false end.

(** The properties of [ReplyPayload] the coordinator reads. *)
Record ReplyPayload : Type := {
  text : option string;
  mediaUrl : option string;
  mediaUrls : option (list string)
}.

Record AcpDispatchDeliveryMeta : Type := {
  toolCallId : option string;
  allowEdit : option bool
}.

(** [meta?.allowEdit === true] *)
Definition allows_edit (meta : option AcpDispatchDeliveryMeta) : bool :=
  match meta ≫= allowEdit with Some true => true | _ => false end.

(** [string | number] *)
Inductive ThreadId : Type :=
  | ThreadName (s : string)
  | ThreadNumber (n : Z).

Record ToolMessageHandle : Type := {
  channel : string;
  accountId : option string;
  to : string;
  threadId : option ThreadId;
  messageId : string
}.

Record RoutedCounts : Type := {
  tool_count : nat;
  block_count : nat;
  final_count : nat
}.

Record AcpDispatchDeliveryState : Type := {
  startedReplyLifecycle : bool;
  accumulatedBlockText : string;
  blockCount : nat;
  routedCounts : RoutedCounts;
  toolMessageByCallId : gmap string ToolMessageHandle
}.

(** The properties of [FinalizedMsgContext] the coordinator reads;
    [MessageThreadId] is [None] when it is [null] or [undefined]. *)
Record FinalizedMsgContext : Type := {
  SessionKey : option string;
  AccountId : option string;
  MessageThreadId : option ThreadId
}.

(** [{ ok, messageId?, error? }], the value [routeReply] resolves to. *)
Record RouteReplyResult : Type := {
  ok : bool;
  result_messageId : option string;
  result_error : option string
}.

Declare Scope delivery_scope.
Delimit Scope delivery_scope with delivery.

Section Coordinator.

(** The configuration object and the TTS mode are only handed on to the
    collaborators. *)
Context {OpenClawConfig TtsAutoMode : Type}.

(** Every call that leaves the coordinator, with its arguments. *)
Inductive Call : Type :=
  | OnReplyStart
  | MaybeApplyTtsToPayload (payload : ReplyPayload) (cfg : OpenClawConfig)
      (tts_channel : option string) (kind : ReplyDispatchKind)
      (inboundAudio : bool) (ttsAuto : option TtsAutoMode)
  | RunMessageAction (cfg : OpenClawConfig) (action : string)
      (target : ToolMessageHandle) (message : string)
      (sessionKey : option string)
  | RouteReply (payload : ReplyPayload) (route_channel route_to : string)
      (sessionKey route_accountId : option string)
      (route_threadId : option ThreadId) (cfg : OpenClawConfig)
  | SendToolResult (payload : ReplyPayload)
  | SendBlockReply (payload : ReplyPayload)
  | SendFinalReply (payload : ReplyPayload)
  | LogVerbose (line : string).

(** A collaborator answers a call knowing the calls made so far (latest
    first); it returns or throws. *)
Definition Collaborator (A : Type) : Type := list Call → Call → outcome A.

Record ReplyDispatcher : Type := {
  sendToolResult : Collaborator bool;
  sendBlockReply : Collaborator bool;
  sendFinalReply : Collaborator bool
}.

(** The modules [dispatch-acp-delivery.ts] imports. *)
Record Imports : Type := {
  runMessageAction : Collaborator unit;
  maybeApplyTtsToPayload : Collaborator ReplyPayload;
  routeReply : Collaborator RouteReplyResult
}.

(** The argument of [createAcpDispatchDeliveryCoordinator]. *)
Record Params : Type := {
  cfg : OpenClawConfig;
  ctx : FinalizedMsgContext;
  dispatcher : ReplyDispatcher;
  inboundAudio : bool;
  sessionTtsAuto : option TtsAutoMode;
  ttsChannel : option string;
  shouldRouteToOriginating : bool;
  originatingChannel : option string;
  originatingTo : option string;
  onReplyStart : option (Collaborator unit)
}.

Record World : Type := {
  state : AcpDispatchDeliveryState;
  trace : list Call
}.

(** Code that reads and writes the coordinator state, calls collaborators
    and may throw; what it wrote before throwing stays written. *)
Definition M (A : Type) : Type := World → outcome A * World.

Definition ret {A} (a : A) : M A := fun w => (Returns a, w).

Definition bind {A B} (m : M A) (k : A → M B) : M B :=
  fun w =>
    match m w with
    | (Returns a, w') => k a w'
    | (Throws e, w') => (Throws e, w')
    end.

Definition try_catch {A} (m : M A) (handler : thrown → M A) : M A :=
  fun w =>
    match m w with
    | (Returns a, w') => (Returns a, w')
    | (Throws e, w') => handler e w'
    end.

Definition read : M AcpDispatchDeliveryState := fun w => (Returns (state w), w).

Definition modify (f : AcpDispatchDeliveryState → AcpDispatchDeliveryState)
  : M unit :=
  fun w => (Returns tt, {| state := f (state w); trace := trace w |}).

Definition call {A} (f : Collaborator A) (c : Call) : M A :=
  fun w => (f (trace w) c, {| state := state w; trace := c :: trace w |}).

Definition logVerbose (line : string) : M unit :=
  fun w => (Returns tt, {| state := state w; trace := LogVerbose line :: trace w |}).

Definition when (b : bool) (m : M unit) : M unit := if b then m else ret tt.

Notation "'let*' x := m 'in' k" := (bind m (fun x => k))
  (at level 10, x name, m at level 100, k at level 200) : delivery_scope.
Notation "m ;; k" := (bind m (fun _ => k))
  (at level 100, k at level 200, right associativity) : delivery_scope.

Variable imports : Imports.
Variable params : Params.

Local Open Scope delivery_scope.

(** The state a new coordinator starts with. *)
Definition initial_state : AcpDispatchDeliveryState :=
  {| startedReplyLifecycle := false;
     accumulatedBlockText := "";
     blockCount := 0;
     routedCounts := {| tool_count := 0; block_count := 0; final_count := 0 |};
     toolMessageByCallId := ∅ |}.

Definition set_started (s : AcpDispatchDeliveryState) : AcpDispatchDeliveryState :=
  {| startedReplyLifecycle := true;
     accumulatedBlockText := accumulatedBlockText s;
     blockCount := blockCount s;
     routedCounts := routedCounts s;
     toolMessageByCallId := toolMessageByCallId s |}.

(** [accumulatedBlockText += "\n"] when it is not empty, then
    [accumulatedBlockText += text; blockCount += 1]. *)
Definition append_block (t : string) (s : AcpDispatchDeliveryState)
  : AcpDispatchDeliveryState :=
  {| startedReplyLifecycle := startedReplyLifecycle s;
     accumulatedBlockText :=
       (if Nat.ltb 0 (String.length (accumulatedBlockText s))
        then accumulatedBlockText s +:+ newline
        else accumulatedBlockText s) +:+ t;
     blockCount := blockCount s + 1;
     routedCounts := routedCounts s;
     toolMessageByCallId := toolMessageByCallId s |}.

(** [routedCounts[kind] += 1] *)
Definition bump (kind : ReplyDispatchKind) (c : RoutedCounts) : RoutedCounts :=
  match kind with
  | tool => {| tool_count := tool_count c + 1; block_count := block_count c;
               final_count := final_count c |}
  | block => {| tool_count := tool_count c; block_count := block_count c + 1;
                final_count := final_count c |}
  | final => {| tool_count := tool_count c; block_count := block_count c;
                final_count := final_count c + 1 |}
  end.

Definition count_routed (kind : ReplyDispatchKind) (s : AcpDispatchDeliveryState)
  : AcpDispatchDeliveryState :=
  {| startedReplyLifecycle := startedReplyLifecycle s;
     accumulatedBlockText := accumulatedBlockText s;
     blockCount := blockCount s;
     routedCounts := bump kind (routedCounts s);
     toolMessageByCallId := toolMessageByCallId s |}.

(** [toolMessageByCallId.set(id, handle)] *)
Definition remember_handle (id : string) (h : ToolMessageHandle)
    (s : AcpDispatchDeliveryState) : AcpDispatchDeliveryState :=
  {| startedReplyLifecycle := startedReplyLifecycle s;
     accumulatedBlockText := accumulatedBlockText s;
     blockCount := blockCount s;
     routedCounts := routedCounts s;
     toolMessageByCallId := <[id := h]> (toolMessageByCallId s) |}.

Definition startReplyLifecycleOnce : M unit :=
  let* s := read in
  if startedReplyLifecycle s then ret tt
  else
    modify set_started ;;
    match onReplyStart params with
    | Some callback => call callback OnReplyStart
    | None => ret tt
    end.

(** [payload.text?.trim()] is a non-empty string. *)
Definition has_text (payload : ReplyPayload) : bool :=
  truthy (trim <$> text payload).

(** [(payload.text?.trim() ?? "").length > 0 || payload.mediaUrl ||
    payload.mediaUrls?.length] *)
Definition has_visible_content (payload : ReplyPayload) : bool :=
  Nat.ltb 0 (String.length (default "" (trim <$> text payload)))
  || truthy (mediaUrl payload)
  || match mediaUrls payload with
     | Some urls => Nat.ltb 0 (length urls)
     | None => false
     end.

(** [params.shouldRouteToOriginating && params.originatingChannel &&
    params.originatingTo], with the two strings when it holds. *)
Definition routing_target : option (string * string) :=
  if shouldRouteToOriginating params then
    match originatingChannel params, originatingTo params with
    | Some c, Some t => if nonempty c && nonempty t then Some (c, t) else None
    | _, _ => None
    end
  else None.

Definition tryEditToolMessage (payload : ReplyPayload) (toolCallId : string)
  : M bool :=
  match routing_target with
  | None => ret false
  | Some _ =>
      let* s := read in
      match toolMessageByCallId s !! toolCallId with
      | None => ret false
      | Some handle =>
          if negb (nonempty (messageId handle)) then ret false
          else
            match trim <$> text payload with
            | None => ret false
            | Some message =>
                if negb (nonempty message) then ret false
                else
                  try_catch
                    (call (runMessageAction imports)
                       (RunMessageAction (cfg params) "edit" handle message
                          (SessionKey (ctx params))) ;;
                     modify (count_routed tool) ;;
                     ret true)
                    (fun error =>
                       logVerbose
                         ("dispatch-acp: tool message edit failed for "
                          +:+ toolCallId +:+ ": " +:+ thrown_text error) ;;
                       ret false)
            end
      end
  end.

Definition deliver (kind : ReplyDispatchKind) (payload : ReplyPayload)
    (meta : option AcpDispatchDeliveryMeta) : M bool :=
  when (is_block kind && has_text payload)
    (modify (append_block (default "" (text payload)))) ;;
  when (has_visible_content payload) startReplyLifecycleOnce ;;
  let* ttsPayload :=
    call (maybeApplyTtsToPayload imports)
      (MaybeApplyTtsToPayload payload (cfg params) (ttsChannel params) kind
         (inboundAudio params) (sessionTtsAuto params)) in
  match routing_target with
  | Some (originating_channel, originating_to) =>
      let toolCallId := trim <$> (meta ≫= toolCallId) in
      let* edited :=
        match toolCallId with
        | Some id =>
            if is_tool kind
               && allows_edit meta
               && nonempty id
            then tryEditToolMessage ttsPayload id
            else ret false
        | None => ret false
        end in
      if edited then ret true
      else
        let* result :=
          call (routeReply imports)
            (RouteReply ttsPayload originating_channel originating_to
               (SessionKey (ctx params)) (AccountId (ctx params))
               (MessageThreadId (ctx params)) (cfg params)) in
        if negb (ok result) then
          logVerbose
            ("dispatch-acp: route-reply (acp/" +:+ kind_name kind +:+ ") failed: "
             +:+ default "unknown error" (result_error result)) ;;
          ret false
        else
          match meta ≫= Delivery.toolCallId, result_messageId result with
          | Some id, Some mid =>
              when (is_tool kind && nonempty id && nonempty mid)
                (modify
                   (remember_handle id
                      {| channel := originating_channel;
                         accountId := AccountId (ctx params);
                         to := originating_to;
                         threadId := MessageThreadId (ctx params);
                         messageId := mid |}))
          | _, _ => ret tt
          end ;;
          modify (count_routed kind) ;;
          ret true
  | None =>
      match kind with
      | tool => call (sendToolResult (dispatcher params)) (SendToolResult ttsPayload)
      | block => call (sendBlockReply (dispatcher params)) (SendBlockReply ttsPayload)
      | final => call (sendFinalReply (dispatcher params)) (SendFinalReply ttsPayload)
      end
  end.

Definition getBlockCount (w : World) : nat :=
  blockCount (state w).

Definition getAccumulatedBlockText (w : World)
  : string :=
  accumulatedBlockText (state w).

Definition getRoutedCounts (w : World)
  : RoutedCounts :=
  routedCounts (state w).

(** [applyRoutedCounts(counts)] adds the coordinator's counters to the
    caller's object; the result is that object afterwards. *)
Definition applyRoutedCounts (w : World)
    (counts : RoutedCounts) : RoutedCounts :=
  {| tool_count := tool_count counts + tool_count (getRoutedCounts w);
     block_count := block_count counts + block_count (getRoutedCounts w);
     final_count := final_count counts + final_count (getRoutedCounts w) |}.

(** The world a new coordinator starts in. *)
Definition createAcpDispatchDeliveryCoordinator : World :=
  {| state := initial_state; trace := [] |}.

(** One call of a caller on the coordinator object. *)
Inductive Operation : Type :=
  | StartReplyLifecycle
  | Deliver (kind : ReplyDispatchKind) (payload : ReplyPayload)
      (meta : option AcpDispatchDeliveryMeta).

(** The world after one call, whether the call returned or threw. *)
Definition perform (op : Operation) (w : World)
  : World :=
  match op with
  | StartReplyLifecycle => snd (startReplyLifecycleOnce w)
  | Deliver kind payload meta => snd (deliver kind payload meta w)
  end.

(** The world after a sequence of calls, each made after the previous one
    has settled. *)
Definition perform_all (ops : list Operation) (w : World)
  : World :=
  fold_left (fun w op => perform op w) ops w.

(** How often a call satisfying [p] occurs in a trace. *)
Definition count_calls (p : Call → bool)
    (t : list (Call)) : nat :=
  length (List.filter p t).

Definition is_onReplyStart (c : Call) : bool :=
  match c with OnReplyStart => true | _ => false end.

Definition is_routeReply (c : Call) : bool :=
  match c with RouteReply _ _ _ _ _ _ _ => true | _ => false end.

Definition is_edit (c : Call) : bool :=
  match c with
  | RunMessageAction _ action _ _ _ => String.eqb action "edit"
  | _ => false
  end.

Definition is_log (c : Call) : bool :=
  match c with LogVerbose _ => true | _ => false end.

(** *** Observations on worlds and computations *)

(** [m] leaves the observation [obs] of the world as it was, whether it
    returns or throws. *)
Definition keeps {A X : Type} (obs : World → X) (m : M A) : Prop :=
  ∀ w, obs (snd (m w)) = obs w.

(** [m] never throws. *)
Definition returns {A : Type} (m : M A) : Prop :=
  ∀ w, ∃ a, fst (m w) = Returns a.

(** A collaborator that never throws. *)
Definition total {A : Type} (f : Collaborator A) : Prop :=
  ∀ history c, ∃ a, f history c = Returns a.

Definition lifecycle_view (w : World) : bool * nat :=
  (startedReplyLifecycle (state w), count_calls is_onReplyStart (trace w)).

Definition block_view (w : World) : string * nat :=
  (accumulatedBlockText (state w), blockCount (state w)).

(** The payload has a text, and the text has a character that is not white
    space. *)
Definition has_non_whitespace_text (payload : ReplyPayload) : bool :=
  match text payload with
  | Some t => negb (all_white_space t)
  | None => false
  end.

(** The payload refers to media: its [mediaUrl] is a string that is not
    empty, or its [mediaUrls] is a list that is not empty. *)
Definition has_media_reference (payload : ReplyPayload) : bool :=
  match mediaUrl payload with
  | Some (String _ _) => true
  | _ => false
  end
  || match mediaUrls payload with
     | Some (_ :: _) => true
     | _ => false
     end.

(** The calls that start the reply lifecycle when it has not started: a
    direct [startReplyLifecycle()], or a [deliver] whose payload has
    non-whitespace text or a media reference. *)
Definition triggers (op : Operation) : bool :=
  match op with
  | StartReplyLifecycle => true
  | Deliver _ payload _ =>
      has_non_whitespace_text payload || has_media_reference payload
  end.

(** Deliveries without visible content: neither non-whitespace text nor a
    media reference. *)
Definition hidden (op : Operation) : Prop :=
  ∃ kind payload meta,
    op = Deliver kind payload meta
    ∧ has_non_whitespace_text payload = false
    ∧ has_media_reference payload = false.

(** The dispatcher method for a kind, and the call it receives. *)
Definition direct_sink (kind : ReplyDispatchKind) : Collaborator bool :=
  match kind with
  | tool => sendToolResult (dispatcher params)
  | block => sendBlockReply (dispatcher params)
  | final => sendFinalReply (dispatcher params)
  end.

Definition direct_call (kind : ReplyDispatchKind) (payload : ReplyPayload) : Call :=
  match kind with
  | tool => SendToolResult payload
  | block => SendBlockReply payload
  | final => SendFinalReply payload
  end.

(** Whether an [onReplyStart] callback was given. *)
Definition has_callback : bool :=
  match onReplyStart params with Some _ => true | None => false end.

(** The effect of [startReplyLifecycleOnce] on the latch and on the number
    of [onReplyStart] calls. *)
Definition start_view (v : bool * nat) : bool * nat :=
  (true, if fst v then snd v else if has_callback then S (snd v) else snd v).

Definition zero_counts : RoutedCounts :=
  {| tool_count := 0; block_count := 0; final_count := 0 |}.

(** *** Vocabulary of the further properties *)

(** What one more block text makes of the accumulated text. *)
Definition accumulate (acc t : string) : string :=
  (if Nat.ltb 0 (String.length acc) then acc +:+ newline else acc) +:+ t.

(** [m] keeps [P] true, whether it returns or throws. *)
Definition preserves {A : Type} (P : World → Prop) (m : M A) : Prop :=
  ∀ w, P w → P (snd (m w)).

(** The texts that a sequence of calls appends to the block text: those of
    the block deliveries with non-whitespace text, in order. *)
Definition block_texts (ops : list Operation) : list string :=
  flat_map
    (λ op,
       match op with
       | Deliver kind payload _ =>
           if is_block kind && has_text payload
           then [default "" (text payload)] else []
       | StartReplyLifecycle => []
       end)
    ops.

Definition is_dispatch (c : Call) : bool :=
  match c with
  | SendToolResult _ | SendBlockReply _ | SendFinalReply _ => true
  | _ => false
  end.

Definition is_tts (c : Call) : bool :=
  match c with MaybeApplyTtsToPayload _ _ _ _ _ _ => true | _ => false end.

(** The counter of a kind. *)
Definition count_of (kind : ReplyDispatchKind) (c : RoutedCounts) : nat :=
  match kind with
  | tool => tool_count c
  | block => block_count c
  | final => final_count c
  end.

Definition same_kind (a b : ReplyDispatchKind) : bool :=
  match a, b with
  | tool, tool | block, block | final, final => true
  | _, _ => false
  end.

(** Whether a call is a delivery of the given kind that returns true. *)
Definition accepts (kind : ReplyDispatchKind) (op : Operation) (w : World) : bool :=
  match op with
  | Deliver kind' payload meta =>
      same_kind kind kind'
      && match fst (deliver kind' payload meta w) with
         | Returns true => true
         | _ => false
         end
  | StartReplyLifecycle => false
  end.

(** How many calls of a sequence are deliveries of the given kind that
    return true. *)
Fixpoint accepted (kind : ReplyDispatchKind) (ops : list Operation) (w : World)
  : nat :=
  match ops with
  | [] => 0
  | op :: rest =>
      (if accepts kind op w then 1 else 0) + accepted kind rest (perform op w)
  end.

(** A handle as [deliver] writes it: for the originating channel and
    address and the account and thread of the context, with a message id. *)
Definition well_formed_handle (h : ToolMessageHandle) : Prop :=
  messageId h ≠ ""
  ∧ Some (channel h) = originatingChannel params
  ∧ Some (to h) = originatingTo params
  ∧ accountId h = AccountId (ctx params)
  ∧ threadId h = MessageThreadId (ctx params).

End Coordinator.

Arguments Call : clear implicits.
Arguments Collaborator : clear implicits.
Arguments ReplyDispatcher : clear implicits.
Arguments Imports : clear implicits.
Arguments Params : clear implicits.
Arguments World : clear implicits.
Arguments M : clear implicits.
Arguments Operation : clear implicits.

End Delivery.

(** ** A host for the examples

    The theorems about the projector hold for every choice of the
    JavaScript built-ins.  The examples run on this one: its numbers are the
    integers a double holds exactly, and its [JSON_parse] reads the JSON
    texts without fractions, exponents and [\u] escapes (it answers [None]
    outside that fragment, and wherever [JSON.parse] throws). *)

Module SampleHost.

Import Events.

Definition number : Type := Z.

Definition Number_isFinite (n : number) : bool := true.

Definition Number_toString (n : number) : string := pretty n.

Definition is_space (c : ascii) : bool :=
  let n := nat_of_ascii c in
  Nat.eqb n 9 || Nat.eqb n 10 || Nat.eqb n 13 || Nat.eqb n 32.

Definition is_digit (c : ascii) : bool :=
  let n := nat_of_ascii c in Nat.leb 48 n && Nat.leb n 57.

Fixpoint skip_space (s : string) : string :=
  match s with
  | String c r => if is_space c then skip_space r else s
  | EmptyString => EmptyString
  end.

Fixpoint take_digits (s : string) : string * string :=
  match s with
  | String c r =>
      if is_digit c then let '(ds, rest) := take_digits r in (String c ds, rest)
      else (EmptyString, s)
  | EmptyString => (EmptyString, EmptyString)
  end.

Fixpoint digits_value (acc : Z) (ds : string) : Z :=
  match ds with
  | String c r => digits_value (10 * acc + Z.of_nat (nat_of_ascii c - 48)) r
  | EmptyString => acc
  end.

Definition starts_fraction_or_exponent (s : string) : bool :=
  match s with
  | String c _ => Ascii.eqb c "." || Ascii.eqb c "e" || Ascii.eqb c "E"
  | EmptyString => false
  end.

Definition read_number (s : string) : option (Z * string) :=
  let '(negative, body) :=
    match s with
    | String "-" r => (true, r)
    | _ => (false, s)
    end in
  let '(ds, rest) := take_digits body in
  match ds with
  | EmptyString => None
  | String "0" (String _ _) => None
  | _ =>
      let v := digits_value 0 ds in
      if starts_fraction_or_exponent rest || Z.ltb (2 ^ 53) v then None
      else Some (if negative then Z.opp v else v, rest)
  end.

Definition unescape (c : ascii) : option ascii :=
  if Ascii.eqb c "034" then Some "034"%char
  else if Ascii.eqb c "\" then Some "\"%char
  else if Ascii.eqb c "/" then Some "/"%char
  else if Ascii.eqb c "b" then Some "008"%char
  else if Ascii.eqb c "f" then Some "012"%char
  else if Ascii.eqb c "n" then Some "010"%char
  else if Ascii.eqb c "r" then Some "013"%char
  else if Ascii.eqb c "t" then Some "009"%char
  else None.

(** The rest of a string literal after its opening quote. *)
Fixpoint read_string (s : string) : option (string * string) :=
  match s with
  | EmptyString => None
  | String c r =>
      if Ascii.eqb c "034" then Some (EmptyString, r)
      else if Ascii.eqb c "\" then
        match r with
        | String e r' =>
            match unescape e, read_string r' with
            | Some c', Some (body, rest) => Some (String c' body, rest)
            | _, _ => None
            end
        | EmptyString => None
        end
      else if Nat.ltb (nat_of_ascii c) 32 then None
      else
        match read_string r with
        | Some (body, rest) => Some (String c body, rest)
        | None => None
        end
  end.

Definition read_word (word : string) (v : json number) (s : string)
  : option (json number * string) :=
  if String.prefix word s
  then Some (v, String.substring (String.length word)
                  (String.length s - String.length word) s)
  else None.

Fixpoint read_value (fuel : nat) (s : string) {struct fuel}
  : option (json number * string) :=
  match fuel with
  | O => None
  | S fuel' =>
      match skip_space s with
      | String "n" _ as t => read_word "null" JNull t
      | String "t" _ as t => read_word "true" (JBool true) t
      | String "f" _ as t => read_word "false" (JBool false) t
      | String "034" r =>
          match read_string r with
          | Some (body, rest) => Some (JStr body, rest)
          | None => None
          end
      | String "[" r =>
          match skip_space r with
          | String "]" rest => Some (JArr [], rest)
          | t =>
              match read_items fuel' t with
              | Some (items, rest) => Some (JArr items, rest)
              | None => None
              end
          end
      | String "{" r =>
          match skip_space r with
          | String "}" rest => Some (JObj [], rest)
          | t =>
              match read_members fuel' t with
              | Some (fields, rest) => Some (JObj fields, rest)
              | None => None
              end
          end
      | t =>
          match read_number t with
          | Some (n, rest) => Some (JNum n, rest)
          | None => None
          end
      end
  end
with read_items (fuel : nat) (s : string) {struct fuel}
  : option (list (json number) * string) :=
  match fuel with
  | O => None
  | S fuel' =>
      match read_value fuel' s with
      | Some (v, r) =>
          match skip_space r with
          | String "," r' =>
              match read_items fuel' r' with
              | Some (vs, rest) => Some (v :: vs, rest)
              | None => None
              end
          | String "]" rest => Some ([v], rest)
          | _ => None
          end
      | None => None
      end
  end
with read_members (fuel : nat) (s : string) {struct fuel}
  : option (list (string * json number) * string) :=
  match fuel with
  | O => None
  | S fuel' =>
      match skip_space s with
      | String "034" r =>
          match read_string r with
          | Some (key, r1) =>
              match skip_space r1 with
              | String ":" r2 =>
                  match read_value fuel' r2 with
                  | Some (v, r3) =>
                      match skip_space r3 with
                      | String "," r4 =>
                          match read_members fuel' r4 with
                          | Some (fields, rest) => Some ((key, v) :: fields, rest)
                          | None => None
                          end
                      | String "}" rest => Some ([(key, v)], rest)
                      | _ => None
                      end
                  | None => None
                  end
              | _ => None
              end
          | None => None
          end
      | _ => None
      end
  end.

Definition JSON_parse (s : string) : option (json number) :=
  match read_value (2 * String.length s + 2) s with
  | Some (v, rest) =>
      match skip_space rest with
      | EmptyString => Some v
      | _ => None
      end
  | None => None
  end.

(** JSON texts are written with apostrophes for their double quotes. *)
Fixpoint quoted (s : string) : string :=
  match s with
  | String c r => String (if Ascii.eqb c "'" then "034"%char else c) (quoted r)
  | EmptyString => EmptyString
  end.

Definition parsePromptEventLine : string → option (AcpRuntimeEvent number) :=
  Events.parsePromptEventLine Number_isFinite Number_toString JSON_parse.

Definition parseJsonLines : string → list (JsonObject number) :=
  Events.parseJsonLines JSON_parse.

End SampleHost.

(** ** Collaborators for the examples

    The stand-ins the repository's tests use: a TTS transform that hands the
    payload back, a route-reply sink that answers from a list and then with
    a default, a dispatcher that accepts everything, and message actions
    that succeed or reject. *)

Module SampleTurn.

Import Js Delivery SampleHost.

Definition Config : Type := unit.
Definition TtsAuto : Type := unit.

Definition empty_payload : ReplyPayload :=
  {| text := None; mediaUrl := None; mediaUrls := None |}.

(** [async (params) => params.payload]; the other calls never reach it. *)
Definition tts_passthrough : Collaborator Config TtsAuto ReplyPayload :=
  fun _ c =>
    match c with
    | MaybeApplyTtsToPayload payload _ _ _ _ _ => Returns payload
    | _ => Returns empty_payload
    end.

Definition routed (id : string) : RouteReplyResult :=
  {| ok := true; result_messageId := Some id; result_error := None |}.

(** [mockResolvedValueOnce] for each element of [first], [fallback]
    afterwards. *)
Definition route_replies (first : list RouteReplyResult)
    (fallback : RouteReplyResult) : Collaborator Config TtsAuto RouteReplyResult :=
  fun history _ =>
    Returns (default fallback (first !! count_calls is_routeReply history)).

Definition route_rejects : Collaborator Config TtsAuto RouteReplyResult :=
  fun _ _ => Throws (ErrorObject "network down").

Definition edit_ok : Collaborator Config TtsAuto unit := fun _ _ => Returns tt.

Definition edit_rejects : Collaborator Config TtsAuto unit :=
  fun _ _ => Throws (ErrorObject "edit unsupported").

Definition accepting_dispatcher : ReplyDispatcher Config TtsAuto :=
  {| sendToolResult := fun _ _ => Returns true;
     sendBlockReply := fun _ _ => Returns true;
     sendFinalReply := fun _ _ => Returns true |}.

Definition reply_start_ok : Collaborator Config TtsAuto unit := fun _ _ => Returns tt.

Definition test_ctx : FinalizedMsgContext :=
  {| SessionKey := Some "agent:codex-acp:session-1";
     AccountId := None;
     MessageThreadId := None |}.

Definition routed_params : Params Config TtsAuto :=
  {| cfg := tt;
     ctx := test_ctx;
     dispatcher := accepting_dispatcher;
     inboundAudio := false;
     sessionTtsAuto := None;
     ttsChannel := None;
     shouldRouteToOriginating := true;
     originatingChannel := Some "telegram";
     originatingTo := Some "telegram:thread-1";
     onReplyStart := Some reply_start_ok |}.

Definition direct_params : Params Config TtsAuto :=
  {| cfg := tt;
     ctx := test_ctx;
     dispatcher := accepting_dispatcher;
     inboundAudio := false;
     sessionTtsAuto := None;
     ttsChannel := None;
     shouldRouteToOriginating := false;
     originatingChannel := None;
     originatingTo := None;
     onReplyStart := Some reply_start_ok |}.

Definition imports_edit_ok : Imports Config TtsAuto :=
  {| runMessageAction := edit_ok;
     maybeApplyTtsToPayload := tts_passthrough;
     routeReply := route_replies [routed "tool-msg-1"] (routed "mock") |}.

Definition imports_edit_rejects : Imports Config TtsAuto :=
  {| runMessageAction := edit_rejects;
     maybeApplyTtsToPayload := tts_passthrough;
     routeReply :=
       route_replies [routed "tool-msg-2"; routed "tool-msg-2-fallback"]
         (routed "mock") |}.

Definition imports_route_rejects : Imports Config TtsAuto :=
  {| runMessageAction := edit_ok;
     maybeApplyTtsToPayload := tts_passthrough;
     routeReply := route_rejects |}.

Definition text_payload (t : string) : ReplyPayload :=
  {| text := Some t; mediaUrl := None; mediaUrls := None |}.

Definition media_payload (url : string) : ReplyPayload :=
  {| text := None; mediaUrl := Some url; mediaUrls := None |}.

Definition gallery_payload (urls : list string) : ReplyPayload :=
  {| text := None; mediaUrl := None; mediaUrls := Some urls |}.

Definition tool_meta (id : string) (edit : bool) : AcpDispatchDeliveryMeta :=
  {| toolCallId := Some id; allowEdit := Some edit |}.

(** The handle the first routed tool message of a test leaves behind. *)
Definition telegram_handle (id : string) : ToolMessageHandle :=
  {| channel := "telegram";
     accountId := None;
     to := "telegram:thread-1";
     threadId := None;
     messageId := id |}.

Definition fresh : World Config TtsAuto := createAcpDispatchDeliveryCoordinator.

(** The world after the first tool message of a call has been routed. *)
Definition after_first_tool_message (imports : Imports Config TtsAuto)
    (id : string) : World Config TtsAuto :=
  perform imports routed_params
    (Deliver tool (text_payload "Run command (in_progress)")
       (Some (tool_meta id false)))
    fresh.

(** The lines of the projector's tests. *)
Definition usage_line : string :=
  quoted "{'jsonrpc':'2.0','method':'session/update','params':{'sessionId':'s1','update':{'sessionUpdate':'usage_update','used':12,'size':500}}}".

Definition bare_error_line : string := quoted "{'type':'error'}".

(** Further stand-ins: a route-reply sink with one fixed answer, a TTS
    transform that throws, and an [onReplyStart] callback that throws. *)
Definition imports_route_answers (answer : RouteReplyResult) : Imports Config TtsAuto :=
  {| runMessageAction := edit_ok;
     maybeApplyTtsToPayload := tts_passthrough;
     routeReply := fun _ _ => Returns answer |}.

Definition refused (error : option string) : RouteReplyResult :=
  {| ok := false; result_messageId := None; result_error := error |}.

Definition imports_tts_throws : Imports Config TtsAuto :=
  {| runMessageAction := edit_ok;
     maybeApplyTtsToPayload := fun _ _ => Throws (ErrorObject "tts failed");
     routeReply := route_replies [] (routed "mock") |}.

Definition reply_start_throws : Collaborator Config TtsAuto unit :=
  fun _ _ => Throws (ErrorObject "typing indicator failed").

Definition routed_params_reply_start_throws : Params Config TtsAuto :=
  {| cfg := tt;
     ctx := test_ctx;
     dispatcher := accepting_dispatcher;
     inboundAudio := false;
     sessionTtsAuto := None;
     ttsChannel := None;
     shouldRouteToOriginating := true;
     originatingChannel := Some "telegram";
     originatingTo := Some "telegram:thread-1";
     onReplyStart := Some reply_start_throws |}.

(** Lines for the further properties. *)
Definition orphan_envelope_line : string :=
  quoted "{'method':'session/update','type':'text','content':'outer','params':{'update':{'content':'inner'}}}".

Definition coded_error_line : string :=
  quoted "{'type':'error','message':' boom ','code':'E1','retryable':false}".

End SampleTurn.

(** * Properties of the event projector *)

Section ProjectorFacts.

Import Events.

Context {number : Type}.
Variable Number_isFinite : number → bool.
Variable Number_toString : number → string.
Variable JSON_parse : string → option (json number).

Local Abbreviation parseLine :=
  (Events.parsePromptEventLine Number_isFinite Number_toString JSON_parse).
Local Abbreviation finiteNumber := (asOptionalFiniteNumber Number_isFinite).

Lemma nonempty_true (s : string) : s ≠ "" → Js.nonempty s = true.
Proof. destruct s; [congruence | reflexivity]. Qed.

(** A line that parses to a record is projected by the [switch] on the
    resolved type. *)
Lemma parse_record_line (line : string) (record : JsonObject number) :
  Js.trim line ≠ "" →
  JSON_parse (Js.trim line) = Some (JObj record) →
  parseLine line =
    let structured := resolveStructuredPromptPayload record in
    projectStructured Number_isFinite Number_toString (s_type structured)
      (s_payload structured) (s_tag structured).
Proof.
  intros Hne Hparse. unfold Events.parsePromptEventLine.
  rewrite (nonempty_true _ Hne), Hparse. reflexivity.
Qed.

(** The [session/update] envelope is unwrapped to its [update] record. *)
Lemma resolve_envelope (parsed params update : JsonObject number) (tag : string) :
  asTrimmedString (prop "method" parsed) = "session/update" →
  prop "params" parsed = Some (JObj params) →
  prop "update" params = Some (JObj update) →
  asOptionalString (prop "sessionUpdate" update) = Some tag →
  tag ≠ "" →
  resolveStructuredPromptPayload parsed =
    {| s_type := tag; s_payload := update; s_tag := Some tag |}.
Proof.
  intros Hm Hp Hu Ht Hne. unfold resolveStructuredPromptPayload.
  rewrite Hm, String.eqb_refl, Hp. cbn [isRecord]. rewrite Hu. cbn [isRecord].
  rewrite Ht. unfold keep_truthy. cbn [Js.truthy default].
  rewrite (nonempty_true _ Hne). reflexivity.
Qed.

Lemma finite_number_spec (v : option (json number)) (n : number) :
  finiteNumber v = Some n ↔ v = Some (JNum n) ∧ Number_isFinite n = true.
Proof.
  unfold asOptionalFiniteNumber. split.
  - destruct v as [[]|]; try discriminate.
    destruct (Number_isFinite n0) eqn:Hfin; [|discriminate].
    intros [= ->]. auto.
  - intros [-> ->]. reflexivity.
Qed.

(** C5, as the code has it: a line that is not empty after trimming and
    whose trimmed text [JSON.parse] rejects becomes a status event whose
    text is the trimmed line, without tag or usage fields; it is not
    dropped. *)
Theorem unparseable_line_is_status (line : string) :
  Js.trim line ≠ "" →
  JSON_parse (Js.trim line) = None →
  parseLine line = Some (Status (Js.trim line) None None None).
Proof.
  intros Hne Hparse. unfold Events.parsePromptEventLine.
  rewrite (nonempty_true _ Hne), Hparse. reflexivity.
Qed.

(** C8: a [session/update] envelope whose update record has
    [sessionUpdate] ["usage_update"] is projected to a status event tagged
    ["usage_update"]; its [used] ([size]) field is present exactly when the
    update's [used] ([size]) is a finite number, and then is that number;
    the text is ["usage updated: {used}/{size}"] when both are present and
    ["usage updated"] otherwise. *)
Theorem usage_update_projection
    (line : string) (parsed params update : JsonObject number) :
  Js.trim line ≠ "" →
  JSON_parse (Js.trim line) = Some (JObj parsed) →
  asTrimmedString (prop "method" parsed) = "session/update" →
  prop "params" parsed = Some (JObj params) →
  prop "update" params = Some (JObj update) →
  asOptionalString (prop "sessionUpdate" update) = Some "usage_update" →
  ∃ (text : string) (used size : option number),
    parseLine line = Some (Status text (Some "usage_update") used size)
    ∧ (∀ n, used = Some n ↔
            prop "used" update = Some (JNum n) ∧ Number_isFinite n = true)
    ∧ (∀ n, size = Some n ↔
            prop "size" update = Some (JNum n) ∧ Number_isFinite n = true)
    ∧ text =
        match used, size with
        | Some u, Some s =>
            "usage updated: " +:+ Number_toString u +:+ "/" +:+ Number_toString s
        | _, _ => "usage updated"
        end.
Proof.
  intros Hne Hparse Hm Hp Hu Ht.
  exists (match finiteNumber (prop "used" update),
                finiteNumber (prop "size" update) with
          | Some u, Some s =>
              "usage updated: " +:+ Number_toString u +:+ "/" +:+ Number_toString s
          | _, _ => "usage updated"
          end),
    (finiteNumber (prop "used" update)), (finiteNumber (prop "size" update)).
  split; [|split; [|split]].
  - rewrite (parse_record_line _ _ Hne Hparse).
    rewrite (resolve_envelope _ _ _ "usage_update" Hm Hp Hu Ht) by discriminate.
    reflexivity.
  - intros n. apply finite_number_spec.
  - intros n. apply finite_number_spec.
  - reflexivity.
Qed.

(** C10, as the code has it: a line that parses to a record whose resolved
    type is ["error"] and whose [message] is absent or empty after trimming
    is projected to an error event with the message ["acpx runtime error"];
    [code] is the payload's code when that is a string which is not empty
    after trimming (trimmed), and [retryable] the payload's flag when that
    is a boolean. *)
Theorem error_default_message (line : string) (parsed : JsonObject number) :
  Js.trim line ≠ "" →
  JSON_parse (Js.trim line) = Some (JObj parsed) →
  s_type (resolveStructuredPromptPayload parsed) = "error" →
  asTrimmedString
    (prop "message" (s_payload (resolveStructuredPromptPayload parsed))) = "" →
  let payload := s_payload (resolveStructuredPromptPayload parsed) in
  ∃ (code : option string) (retryable : option bool),
    parseLine line = Some (Error "acpx runtime error" code retryable)
    ∧ (∀ c, prop "code" payload = Some (JStr c) → Js.trim c ≠ "" →
            code = Some (Js.trim c))
    ∧ (∀ b, prop "retryable" payload = Some (JBool b) → retryable = Some b).
Proof.
  intros Hne Hparse Htype Hmsg payload.
  exists (asOptionalString (prop "code" payload)),
    (asOptionalBoolean (prop "retryable" payload)).
  split; [|split].
  - rewrite (parse_record_line _ _ Hne Hparse). cbv zeta.
    rewrite Htype. unfold projectStructured. simpl String.eqb. cbv iota.
    subst payload. rewrite Hmsg. reflexivity.
  - intros c Hc Hnb. unfold asOptionalString. rewrite Hc. simpl.
    rewrite (nonempty_true _ Hnb). reflexivity.
  - intros b Hb. rewrite Hb. reflexivity.
Qed.

(** ** Further properties of the projector *)

Local Abbreviation project :=
  (projectStructured Number_isFinite Number_toString).

Lemma nonempty_neq (s : string) : Js.nonempty s = true → s ≠ "".
Proof. destruct s; [discriminate | congruence]. Qed.

Lemma nonempty_append (a b : string) :
  Js.nonempty a = true → Js.nonempty (a +:+ b) = true.
Proof. destruct a; [discriminate | reflexivity]. Qed.

Lemma nonempty_or_else (a b : string) :
  Js.nonempty b = true → Js.nonempty (Js.or_else a b) = true.
Proof. intros Hb. unfold Js.or_else. destruct (Js.nonempty a) eqn:Ha; assumption. Qed.

Lemma asOptionalString_nonempty (v : option (json number)) (t : string) :
  asOptionalString v = Some t → Js.nonempty t = true.
Proof.
  unfold asOptionalString. destruct (Js.nonempty (asTrimmedString v)) eqn:H;
    [|discriminate]. intros [= <-]. exact H.
Qed.

Lemma keep_truthy_asOptionalString (v : option (json number)) :
  keep_truthy (asOptionalString v) = asOptionalString v.
Proof.
  unfold keep_truthy. destruct (asOptionalString v) as [t|] eqn:H; [|reflexivity].
  simpl. rewrite (asOptionalString_nonempty _ _ H). reflexivity.
Qed.

(** Settles the tests of the projector's [switch] for a type that is none
    of its labels. *)
Lemma unknown_type_projects_nothing (type : string) (payload : JsonObject number)
    (tag : option string) :
  ¬ In type known_event_types → project type payload tag = None.
Proof.
  intros Hnot. unfold projectStructured.
  repeat match goal with
  | |- context [String.eqb type ?label] =>
      let H := fresh in
      destruct (String.eqb_spec type label) as [H|H];
      [exfalso; apply Hnot; rewrite H; simpl; tauto | clear H]
  end.
  reflexivity.
Qed.

(** X1: a line that is empty after trimming is dropped, and so is a line
    whose JSON text is not a record (a number, a string, a boolean, [null]
    or an array). *)
Theorem non_record_line_is_dropped (line : string) :
  (Js.trim line = "" → parseLine line = None)
  ∧ (∀ v, JSON_parse (Js.trim line) = Some v → isRecord (Some v) = None →
       parseLine line = None).
Proof.
  unfold Events.parsePromptEventLine. split.
  - intros ->. reflexivity.
  - intros v Hparse Hrec. destruct (Js.nonempty (Js.trim line)); [|reflexivity].
    cbn [negb]. rewrite Hparse, Hrec. reflexivity.
Qed.

(** X2: a record whose resolved type is none of the labels of the
    projector's [switch] is dropped. *)
Theorem unknown_type_is_dropped (line : string) (parsed : JsonObject number) :
  JSON_parse (Js.trim line) = Some (JObj parsed) →
  ¬ In (s_type (resolveStructuredPromptPayload parsed)) known_event_types →
  parseLine line = None.
Proof.
  intros Hparse Hnot. unfold Events.parsePromptEventLine.
  destruct (Js.nonempty (Js.trim line)); [|reflexivity].
  cbn [negb]. rewrite Hparse. cbn [isRecord].
  apply unknown_type_projects_nothing, Hnot.
Qed.

Lemma resolveTextChunk_text (payload : JsonObject number) (stream : Stream)
    (tag : string) (ev : AcpRuntimeEvent number) :
  resolveTextChunk payload stream tag = Some ev →
  ∃ t, ev = Text_delta t stream (Some tag) ∧ Js.nonempty t = true.
Proof.
  unfold resolveTextChunk.
  assert (Hfallback :
            match asString (prop "text" payload) with
            | Some t =>
                if Js.nonempty t then Some (Text_delta t stream (Some tag)) else None
            | None => None
            end = Some ev →
            ∃ t, ev = Text_delta t stream (Some tag) ∧ Js.nonempty t = true).
  { destruct (asString (prop "text" payload)) as [t|]; [|discriminate].
    destruct (Js.nonempty t) eqn:Ht; [|discriminate].
    intros [= <-]. eauto. }
  destruct (isRecord (prop "content" payload)) as [content|]; [|exact Hfallback].
  destruct (_ && _); [discriminate|].
  destruct (asString (prop "text" content)) as [t|]; [|exact Hfallback].
  destruct (Js.nonempty t) eqn:Ht; [|exact Hfallback].
  intros [= <-]. eauto.
Qed.

Lemma project_text_nonempty (type : string) (payload : JsonObject number)
    (tag : option string) (ev : AcpRuntimeEvent number) :
  project type payload tag = Some ev →
  Forall (λ t, Js.nonempty t = true) (display_texts ev).
Proof.
  unfold projectStructured.
  repeat match goal with
  | |- context [if String.eqb type ?label then _ else _] =>
      destruct (String.eqb type label)
  | |- context [if (_ || _)%bool then _ else _] => destruct (_ || _)%bool
  end;
  try discriminate;
  repeat match goal with
  | |- context [match asString ?v with _ => _ end] => destruct (asString v)
  | |- context [match resolveStatusTextForTag ?t ?p with _ => _ end] =>
      destruct (resolveStatusTextForTag t p)
  end;
  try discriminate;
  try (intros Hchunk; apply resolveTextChunk_text in Hchunk as (t & -> & Ht);
       repeat constructor; exact Ht);
  repeat match goal with
  | |- (if Js.nonempty ?x then _ else _) = _ → _ => destruct (Js.nonempty x) eqn:?
  | |- context [if Js.nonempty ?x then _ else _] => destruct (Js.nonempty x) eqn:?
  end;
  try discriminate;
  intros [= <-]; simpl;
  repeat constructor;
  repeat first
    [ assumption
    | reflexivity
    | apply nonempty_or_else
    | apply nonempty_append ].
  destruct (finiteNumber (prop "used" payload)), (finiteNumber (prop "size" payload));
    reflexivity.
Qed.

(** X3: the display texts of a projected event (the text of a text delta,
    the text and the title of a tool call, the text of a status, the
    message of an error) are never empty. *)
Theorem projected_text_is_never_empty (line : string) (ev : AcpRuntimeEvent number) :
  parseLine line = Some ev → Forall (λ t, t ≠ "") (display_texts ev).
Proof.
  intros Hev.
  eapply Forall_impl; [|intros t; apply nonempty_neq].
  revert Hev. unfold Events.parsePromptEventLine.
  destruct (Js.nonempty (Js.trim line)) eqn:Hne; [|discriminate]. cbn [negb].
  destruct (JSON_parse (Js.trim line)) as [v|].
  - destruct (isRecord (Some v)) as [record|]; [|discriminate].
    apply project_text_nonempty.
  - intros [= <-]. repeat constructor. exact Hne.
Qed.

(** X4: in a [session/update] envelope whose [params.update] is a record,
    the event is the projection of that record under its own
    [sessionUpdate], which is both type and tag; the [type], [tag] and
    [sessionUpdate] of the outer object are not looked at, and an update
    without a [sessionUpdate] is dropped. *)
Theorem envelope_projects_only_its_update
    (line : string) (parsed params update : JsonObject number) :
  Js.trim line ≠ "" →
  JSON_parse (Js.trim line) = Some (JObj parsed) →
  asTrimmedString (prop "method" parsed) = "session/update" →
  prop "params" parsed = Some (JObj params) →
  prop "update" params = Some (JObj update) →
  let sessionUpdate := asOptionalString (prop "sessionUpdate" update) in
  parseLine line = project (default "" sessionUpdate) update sessionUpdate
  ∧ (sessionUpdate = None → parseLine line = None).
Proof.
  intros Hne Hparse Hm Hp Hu sessionUpdate.
  assert (Hline : parseLine line
                  = project (default "" sessionUpdate) update sessionUpdate).
  { rewrite (parse_record_line _ _ Hne Hparse).
    unfold resolveStructuredPromptPayload.
    rewrite Hm, String.eqb_refl, Hp. cbn [isRecord]. rewrite Hu. cbn [isRecord].
    cbv zeta. cbn [s_type s_payload s_tag].
    rewrite keep_truthy_asOptionalString. reflexivity. }
  split; [exact Hline|].
  intros Hnone. rewrite Hline, Hnone.
  apply unknown_type_projects_nothing. simpl.
  intros H. repeat (destruct H as [H|H]; [discriminate|]). exact H.
Qed.

(** X5: a chunk whose [content] record names a type other than ["text"]
    yields nothing, even when the chunk has a [text] of its own; a [content]
    record without such a type and with a non-empty [text] yields that text
    untrimmed; and without a [content] record the chunk's own non-empty
    [text] is taken, untrimmed. *)
Theorem chunk_text_resolution (payload : JsonObject number) (stream : Stream)
    (tag : string) :
  (∀ content,
     prop "content" payload = Some (JObj content) →
     asTrimmedString (prop "type" content) ≠ "" →
     asTrimmedString (prop "type" content) ≠ "text" →
     resolveTextChunk payload stream tag = None)
  ∧ (∀ content t,
       prop "content" payload = Some (JObj content) →
       asTrimmedString (prop "type" content) = ""
       ∨ asTrimmedString (prop "type" content) = "text" →
       prop "text" content = Some (JStr t) → t ≠ "" →
       resolveTextChunk payload stream tag = Some (Text_delta t stream (Some tag)))
  ∧ (∀ t,
       isRecord (prop "content" payload) = None →
       prop "text" payload = Some (JStr t) → t ≠ "" →
       resolveTextChunk payload stream tag = Some (Text_delta t stream (Some tag))).
Proof.
  unfold resolveTextChunk. split; [|split].
  - intros content Hc Hne Hnt. rewrite Hc. cbn [isRecord].
    rewrite (nonempty_true _ Hne).
    destruct (String.eqb_spec (asTrimmedString (prop "type" content)) "text");
      [contradiction | reflexivity].
  - intros content t Hc Htype Ht Hne. rewrite Hc. cbn [isRecord].
    rewrite Ht. cbn [asString]. rewrite (nonempty_true _ Hne).
    destruct Htype as [-> | ->]; reflexivity.
  - intros t Hc Ht Hne. rewrite Hc, Ht. cbn [asString].
    rewrite (nonempty_true _ Hne). reflexivity.
Qed.

Lemma project_error_type (type : string) (payload : JsonObject number)
    (tag : option string) (m : string) (c : option string) (r : option bool) :
  project type payload tag = Some (Error m c r) → type = "error".
Proof.
  unfold projectStructured.
  repeat match goal with
  | |- context [if String.eqb type ?label then _ else _] =>
      destruct (String.eqb_spec type label) as [Heq|_];
      [try (intros _; exact Heq)|]
  | |- context [if (_ || _)%bool then _ else _] => destruct (_ || _)%bool
  end;
  try discriminate;
  repeat match goal with
  | |- context [match asString ?v with _ => _ end] => destruct (asString v)
  | |- context [match resolveStatusTextForTag ?t ?p with _ => _ end] =>
      destruct (resolveStatusTextForTag t p)
  | |- context [if Js.nonempty ?x then _ else _] => destruct (Js.nonempty x)
  end;
  try discriminate;
  try (intros Hchunk; apply resolveTextChunk_text in Hchunk as (t & [=] & _)).
Qed.

(** X6: on a record that is no [session/update] envelope and has no
    [sessionUpdate] of its own, [toAcpxErrorEvent] and the projector agree:
    the projector yields an error event exactly when [toAcpxErrorEvent]
    yields one, with the same [code] and [retryable], and with the same
    message whenever the record has a non-blank message (the two differ
    only in their default message). *)
Theorem error_events_agree (line : string) (parsed : JsonObject number) :
  Js.trim line ≠ "" →
  JSON_parse (Js.trim line) = Some (JObj parsed) →
  asTrimmedString (prop "method" parsed) ≠ "session/update" →
  asOptionalString (prop "sessionUpdate" parsed) = None →
  (∀ ev, toAcpxErrorEvent (Some (JObj parsed)) = Some ev →
     ∃ m, parseLine line = Some (Error m (code ev) (retryable ev))
          ∧ (asTrimmedString (prop "message" parsed) ≠ "" →
             m = message ev ∧ m = asTrimmedString (prop "message" parsed)))
  ∧ (toAcpxErrorEvent (Some (JObj parsed)) = None →
     ∀ m c r, parseLine line ≠ Some (Error m c r)).
Proof.
  intros Hne Hparse Hm Hsu.
  assert (Hres : resolveStructuredPromptPayload parsed
                 = {| s_type := asTrimmedString (prop "type" parsed);
                      s_payload := parsed;
                      s_tag := asOptionalString (prop "tag" parsed) |}).
  { unfold resolveStructuredPromptPayload.
    destruct (String.eqb_spec (asTrimmedString (prop "method" parsed)) "session/update");
      [contradiction|].
    rewrite Hsu. cbn [Js.truthy]. rewrite keep_truthy_asOptionalString. reflexivity. }
  rewrite (parse_record_line _ _ Hne Hparse), Hres. cbv zeta.
  cbn [s_type s_payload s_tag]. unfold toAcpxErrorEvent. cbn [isRecord].
  destruct (String.eqb_spec (asTrimmedString (prop "type" parsed)) "error") as [Heq|Hneq];
    cbn [negb].
  - split; [|discriminate]. intros ev [= <-]. cbn [code retryable message].
    rewrite Heq. unfold projectStructured. simpl String.eqb. cbv iota.
    eexists. split; [reflexivity|].
    intros Hmsg. unfold Js.or_else. rewrite (nonempty_true _ Hmsg). auto.
  - split; [discriminate|]. intros _ m c r Hev.
    apply project_error_type in Hev. contradiction.
Qed.

(** ** Lines of JSON *)

Lemma split_lines_cons (c : ascii) (r : string) :
  Js.split_lines (String c r)
  = if Ascii.eqb c "010" then EmptyString :: Js.split_lines r
    else
      match r with
      | String c' r' =>
          if Ascii.eqb c "013" && Ascii.eqb c' "010"
          then EmptyString :: Js.split_lines r'
          else Js.push_char c (Js.split_lines r)
      | EmptyString => Js.push_char c (Js.split_lines r)
      end.
Proof. reflexivity. Qed.

Lemma split_lines_nonempty (s : string) : Js.split_lines s ≠ [].
Proof.
  destruct s as [|c r]; [discriminate|]. rewrite split_lines_cons.
  destruct (Ascii.eqb c "010"); [discriminate|].
  destruct r as [|c' r']; [discriminate|].
  destruct (Ascii.eqb c "013" && Ascii.eqb c' "010"); [discriminate|].
  unfold Js.push_char. destruct (Js.split_lines (String c' r')); discriminate.
Qed.

Lemma feed_cons (piece : string) (pieces rest : list string) :
  pieces ≠ [] → Js.feed (piece :: pieces) rest = piece :: Js.feed pieces rest.
Proof. destruct pieces; [congruence | reflexivity]. Qed.

Lemma feed_push_char (c : ascii) (pieces rest : list string) :
  pieces ≠ [] → pieces ≠ [EmptyString] ∨ c ≠ "013"%char →
  Js.push_char c (Js.feed pieces rest) = Js.feed (Js.push_char c pieces) rest.
Proof.
  intros Hne Hcr. destruct pieces as [|piece [|piece' pieces]]; [congruence| |reflexivity].
  simpl. f_equal. destruct piece as [|c' r']; [|reflexivity].
  destruct Hcr as [H|H]; [congruence|].
  destruct (Ascii.eqb_spec c "013"); [contradiction | reflexivity].
Qed.

Lemma split_lines_single_empty (s : string) :
  Js.split_lines s = [EmptyString] → s = EmptyString.
Proof.
  destruct s as [|c r]; [reflexivity|]. rewrite split_lines_cons.
  pose proof (split_lines_nonempty r) as Hr.
  destruct (Ascii.eqb c "010").
  { intros [= H]. contradiction. }
  assert (Hpush : Js.push_char c (Js.split_lines r) ≠ [EmptyString]).
  { unfold Js.push_char. destruct (Js.split_lines r); discriminate. }
  destruct r as [|c' r']; [contradiction|].
  destruct (Ascii.eqb c "013" && Ascii.eqb c' "010"); [|contradiction].
  intros [= H]. exfalso. exact (split_lines_nonempty r' H).
Qed.

(** The pieces of [a], a line feed, [b]. *)
Lemma split_lines_feed (n : nat) :
  ∀ a b, String.length a ≤ n →
    Js.split_lines (a +:+ String "010" b) = Js.feed (Js.split_lines a) (Js.split_lines b).
Proof.
  induction n as [|n IH]; intros a b Hlen.
  { destruct a; [reflexivity | simpl in Hlen; lia]. }
  destruct a as [|c r]; [reflexivity|].
  change (String c r +:+ String "010" b) with (String c (r +:+ String "010" b)).
  rewrite !split_lines_cons. simpl in Hlen.
  destruct (Ascii.eqb c "010") eqn:Hlf.
  { rewrite IH by lia. rewrite feed_cons by apply split_lines_nonempty. reflexivity. }
  destruct r as [|c' r'].
  { change (EmptyString +:+ String "010" b) with (String "010" b). cbv iota.
    change (Ascii.eqb "010" "010") with true. rewrite andb_true_r.
    destruct (Ascii.eqb c "013") eqn:Hcr.
    - simpl. rewrite Hcr. reflexivity.
    - rewrite split_lines_cons. simpl. rewrite Hcr. reflexivity. }
  change (String c' r' +:+ String "010" b) with (String c' (r' +:+ String "010" b)).
  cbv iota.
  destruct (Ascii.eqb c "013" && Ascii.eqb c' "010") eqn:Hcrlf.
  { simpl in Hlen. rewrite IH by lia.
    rewrite feed_cons by apply split_lines_nonempty. reflexivity. }
  change (String c' (r' +:+ String "010" b)) with (String c' r' +:+ String "010" b).
  rewrite IH by lia. apply feed_push_char; [apply split_lines_nonempty|].
  left. intros H. apply split_lines_single_empty in H. discriminate.
Qed.

Lemma trimStart_strip_cr (s : string) :
  Js.trimStart (Js.strip_cr s) = Js.strip_cr (Js.trimStart s).
Proof.
  induction s as [|c r IH]; [reflexivity|].
  destruct r as [|c' r'].
  - change (Js.strip_cr (String c EmptyString))
      with (if Ascii.eqb c "013" then EmptyString else String c EmptyString).
    change (Js.trimStart (String c EmptyString))
      with (if Js.is_white_space c then EmptyString else String c EmptyString).
    destruct (Ascii.eqb_spec c "013") as [->|Hc]; [reflexivity|].
    change (Js.trimStart (String c EmptyString))
      with (if Js.is_white_space c then EmptyString else String c EmptyString).
    destruct (Js.is_white_space c); [reflexivity|].
    change (Js.strip_cr (String c EmptyString))
      with (if Ascii.eqb c "013" then EmptyString else String c EmptyString).
    destruct (Ascii.eqb_spec c "013"); [contradiction | reflexivity].
  - change (Js.strip_cr (String c (String c' r')))
      with (String c (Js.strip_cr (String c' r'))).
    change (Js.trimStart (String c (Js.strip_cr (String c' r'))))
      with (if Js.is_white_space c then Js.trimStart (Js.strip_cr (String c' r'))
            else String c (Js.strip_cr (String c' r'))).
    change (Js.trimStart (String c (String c' r')))
      with (if Js.is_white_space c then Js.trimStart (String c' r')
            else String c (String c' r')).
    destruct (Js.is_white_space c); [exact IH | reflexivity].
Qed.

Lemma trimEnd_strip_cr (s : string) : Js.trimEnd (Js.strip_cr s) = Js.trimEnd s.
Proof.
  induction s as [|c r IH]; [reflexivity|].
  destruct r as [|c' r'].
  - simpl. destruct (Ascii.eqb_spec c "013") as [->|Hc]; reflexivity.
  - change (Js.strip_cr (String c (String c' r')))
      with (String c (Js.strip_cr (String c' r'))).
    change (Js.trimEnd (String c (Js.strip_cr (String c' r'))))
      with (match Js.trimEnd (Js.strip_cr (String c' r')) with
            | EmptyString =>
                if Js.is_white_space c then EmptyString else String c EmptyString
            | String _ _ as t => String c t
            end).
    rewrite IH. reflexivity.
Qed.

Lemma trim_strip_cr (s : string) : Js.trim (Js.strip_cr s) = Js.trim s.
Proof. unfold Js.trim. rewrite trimStart_strip_cr. apply trimEnd_strip_cr. Qed.

Lemma parseJsonLine_strip_cr (line : string) :
  parseJsonLine JSON_parse (Js.strip_cr line) = parseJsonLine JSON_parse line.
Proof. unfold parseJsonLine. rewrite trim_strip_cr. reflexivity. Qed.

Lemma flat_map_feed (pieces rest : list string) :
  pieces ≠ [] →
  flat_map (parseJsonLine JSON_parse) (Js.feed pieces rest)
  = flat_map (parseJsonLine JSON_parse) pieces
    ++ flat_map (parseJsonLine JSON_parse) rest.
Proof.
  induction pieces as [|piece pieces IH]; [congruence|]. intros _.
  destruct pieces as [|piece' pieces].
  - simpl. rewrite parseJsonLine_strip_cr, app_nil_r. reflexivity.
  - rewrite feed_cons by discriminate.
    change (flat_map ?f (?x :: ?l)) with (f x ++ flat_map f l).
    rewrite IH by discriminate. rewrite app_assoc. reflexivity.
Qed.

(** X7: the records of a text are those of its part before a line feed
    followed by those of its part after it, so a text can be read in
    pieces that end at line feeds; a line that is blank, is not JSON, or
    is JSON but no record adds nothing, and cannot spoil the other lines. *)
Theorem parseJsonLines_by_pieces (a b : string) :
  parseJsonLines JSON_parse (a +:+ Js.newline +:+ b)
  = parseJsonLines JSON_parse a ++ parseJsonLines JSON_parse b.
Proof.
  unfold parseJsonLines, Js.newline.
  change (a +:+ String "010" EmptyString +:+ b) with (a +:+ String "010" b).
  rewrite (split_lines_feed (String.length a)) by lia.
  apply flat_map_feed, split_lines_nonempty.
Qed.

Lemma nonempty_join_head (sep t : string) (ts : list string) :
  Js.nonempty t = true → Js.nonempty (Js.join sep (t :: ts)) = true.
Proof.
  intros Ht. destruct ts as [|t' ts]; [exact Ht|].
  change (Js.join sep (t :: t' :: ts)) with (t +:+ sep +:+ Js.join sep (t' :: ts)).
  apply nonempty_append, Ht.
Qed.

Lemma status_text_for_update (type : string) (payload : JsonObject number) :
  In type ["available_commands_update"; "current_mode_update";
           "config_option_update"; "session_info_update"] →
  ∃ text, resolveStatusTextForTag type payload = Some text
          ∧ Js.nonempty text = true.
Proof.
  intros Hin. simpl in Hin.
  destruct Hin as [<-|[<-|[<-|[<-|[]]]]]; unfold resolveStatusTextForTag;
    simpl String.eqb; cbv iota.
  - destruct (Nat.ltb 0 _); eexists; split; reflexivity.
  - destruct (Js.nonempty (Js.or_else _ _)); eexists; split; reflexivity.
  - destruct (Js.nonempty (Js.or_else _ _) && Js.nonempty (Js.or_else _ _));
      [eexists; split; reflexivity|].
    destruct (Js.nonempty (Js.or_else _ _)); eexists; split; reflexivity.
  - eexists. split; [reflexivity|].
    apply nonempty_or_else, nonempty_or_else. reflexivity.
Qed.

(** X8: ten kinds of update are never dropped, whatever the record holds:
    tool calls and their updates, usage updates, updates of the available
    commands, of the mode, of a configuration option and of the session
    info, client operations, [done] and [error] each project to an event. *)
Theorem updates_that_are_never_dropped (line : string) (parsed : JsonObject number) :
  Js.trim line ≠ "" →
  JSON_parse (Js.trim line) = Some (JObj parsed) →
  In (s_type (resolveStructuredPromptPayload parsed))
    ["tool_call"; "tool_call_update"; "usage_update"; "available_commands_update";
     "current_mode_update"; "config_option_update"; "session_info_update";
     "client_operation"; "done"; "error"] →
  is_Some (parseLine line).
Proof.
  intros Hne Hparse Hin. rewrite (parse_record_line _ _ Hne Hparse). cbv zeta.
  set (payload := s_payload (resolveStructuredPromptPayload parsed)).
  set (tag := s_tag (resolveStructuredPromptPayload parsed)).
  revert Hin. generalize (s_type (resolveStructuredPromptPayload parsed)).
  intros type Hin. simpl in Hin.
  assert (Hstatus :
            ∀ t, In t ["available_commands_update"; "current_mode_update";
                       "config_option_update"; "session_info_update"] →
                 is_Some
                   match resolveStatusTextForTag t payload with
                   | Some text =>
                       if Js.nonempty text
                       then Some (Status text (Some t) (None : option number) None)
                       else None
                   | None => None
                   end).
  { intros t Ht. destruct (status_text_for_update t payload Ht) as (text & -> & ->).
    eexists. reflexivity. }
  destruct Hin as [<-|[<-|[<-|[<-|[<-|[<-|[<-|[<-|[<-|[<-|[]]]]]]]]]]];
    unfold projectStructured; simpl String.eqb; cbv iota; cbn [orb];
    try (eexists; reflexivity);
    try (apply Hstatus; simpl; tauto).
  set (method := Js.or_else (asTrimmedString (prop "method" payload)) "operation").
  assert (Hm : Js.nonempty method = true) by (apply nonempty_or_else; reflexivity).
  cbn [List.filter]. rewrite Hm. rewrite nonempty_join_head by exact Hm.
  eexists. reflexivity.
Qed.

End ProjectorFacts.

(** * Properties of the delivery coordinator *)

Section DeliveryFacts.

Import Js Delivery.

Context {OpenClawConfig TtsAutoMode : Type}.
Variable imports : Imports OpenClawConfig TtsAutoMode.
Variable params : Params OpenClawConfig TtsAutoMode.

Local Abbreviation World' := (World OpenClawConfig TtsAutoMode).
Local Abbreviation M' := (M OpenClawConfig TtsAutoMode).
Local Abbreviation Call' := (Call OpenClawConfig TtsAutoMode).
Local Abbreviation deliver' := (deliver imports params).
Local Abbreviation fresh' :=
  (createAcpDispatchDeliveryCoordinator (OpenClawConfig := OpenClawConfig)
     (TtsAutoMode := TtsAutoMode)).

(** ** Computations that leave an observation alone *)

Section Keeps.

Context {X : Type} (obs : World' → X).

Lemma keeps_ret {A} (a : A) : keeps obs (ret a).
Proof. intros w. reflexivity. Qed.

Lemma keeps_read : keeps obs read.
Proof. intros w. reflexivity. Qed.

Lemma keeps_bind {A B} (m : M' A) (k : A → M' B) :
  keeps obs m → (∀ a, keeps obs (k a)) → keeps obs (bind m k).
Proof.
  intros Hm Hk w. unfold bind. specialize (Hm w).
  destruct (m w) as [[a|e] w1]; simpl in *; [|exact Hm].
  rewrite (Hk a w1). exact Hm.
Qed.

Lemma keeps_try_catch {A} (m : M' A) (handler : thrown → M' A) :
  keeps obs m → (∀ e, keeps obs (handler e)) → keeps obs (try_catch m handler).
Proof.
  intros Hm Hh w. unfold try_catch. specialize (Hm w).
  destruct (m w) as [[a|e] w1]; simpl in *; [exact Hm|].
  rewrite (Hh e w1). exact Hm.
Qed.

Lemma keeps_when (b : bool) (m : M' unit) : keeps obs m → keeps obs (when b m).
Proof. intros Hm. destruct b; [exact Hm | apply keeps_ret]. Qed.

Lemma keeps_modify (f : AcpDispatchDeliveryState → AcpDispatchDeliveryState) :
  (∀ s t, obs {| state := f s; trace := t |} = obs {| state := s; trace := t |}) →
  keeps obs (modify f).
Proof. intros Hf [s t]. apply Hf. Qed.

Lemma keeps_call {A} (f : Collaborator OpenClawConfig TtsAutoMode A) (c : Call') :
  (∀ s t, obs {| state := s; trace := c :: t |} = obs {| state := s; trace := t |}) →
  keeps obs (call f c).
Proof. intros Hc [s t]. apply Hc. Qed.

Lemma keeps_log (line : string) :
  (∀ s t, obs {| state := s; trace := LogVerbose line :: t |}
          = obs {| state := s; trace := t |}) →
  keeps obs (logVerbose line).
Proof. intros Hc [s t]. apply Hc. Qed.

(** What follows a computation does not show in [obs] when it keeps it. *)
Lemma bind_keeps_tail {A B} (m : M' A) (k : A → M' B) (w : World') :
  (∀ a, keeps obs (k a)) → obs (snd (bind m k w)) = obs (snd (m w)).
Proof.
  intros Hk. unfold bind. destruct (m w) as [[a|e] w1]; simpl; [|reflexivity].
  apply Hk.
Qed.

End Keeps.

(** Walks through a computation, leaving the facts about single writes and
    calls to [solve]. *)
Ltac keeps_walk solve :=
  repeat first
    [ apply keeps_ret
    | apply keeps_read
    | apply keeps_bind
    | apply keeps_try_catch
    | apply keeps_when
    | apply keeps_modify; solve
    | apply keeps_call; solve
    | apply keeps_log; solve
    | progress intros
    | match goal with
      | |- keeps _ (match ?x with _ => _ end) => destruct x
      end ].

(** ** The reply lifecycle *)

Lemma bind_returned {A B} (m : M' A) (k : A → M' B) (w w1 : World') (a : A) :
  m w = (Returns a, w1) → bind m k w = k a w1.
Proof. intros H. unfold bind. rewrite H. reflexivity. Qed.

Lemma when_modify (b : bool)
    (f : AcpDispatchDeliveryState → AcpDispatchDeliveryState) (w : World') :
  when b (modify f) w
  = (Returns tt, {| state := if b then f (state w) else state w; trace := trace w |}).
Proof. destruct w, b; reflexivity. Qed.

Lemma startReplyLifecycleOnce_view (w : World') :
  lifecycle_view (snd (startReplyLifecycleOnce params w))
  = start_view params (lifecycle_view w).
Proof.
  destruct w as [s t]. unfold startReplyLifecycleOnce, start_view, has_callback, bind, read.
  simpl. destruct (startedReplyLifecycle s) eqn:Hs; simpl.
  - unfold lifecycle_view. simpl. rewrite Hs. reflexivity.
  - destruct (onReplyStart params) as [callback|]; reflexivity.
Qed.

(** After the lifecycle step nothing in [deliver] touches the latch or
    calls [onReplyStart]. *)
Lemma deliver_lifecycle_view (kind : ReplyDispatchKind) (payload : ReplyPayload)
    (meta : option AcpDispatchDeliveryMeta) (w : World') :
  lifecycle_view (snd (deliver' kind payload meta w))
  = if has_visible_content payload then start_view params (lifecycle_view w)
    else lifecycle_view w.
Proof.
  unfold deliver. erewrite bind_returned by apply when_modify.
  rewrite bind_keeps_tail.
  - destruct (has_visible_content payload); simpl.
    + rewrite startReplyLifecycleOnce_view. destruct w, (is_block kind && has_text payload); reflexivity.
    + destruct w, (is_block kind && has_text payload); reflexivity.
  - intros _. unfold tryEditToolMessage. keeps_walk ltac:(intros; reflexivity).
Qed.

(** What [trim] leaves of a string is empty exactly when the string has
    nothing but white space. *)
Lemma all_white_space_trimStart (s : string) :
  all_white_space (trimStart s) = all_white_space s.
Proof.
  induction s as [|c r IH]; [reflexivity|].
  change (trimStart (String c r))
    with (if is_white_space c then trimStart r else String c r).
  change (all_white_space (String c r))
    with (is_white_space c && all_white_space r).
  destruct (is_white_space c) eqn:Hc; [exact IH|].
  change (all_white_space (String c r))
    with (is_white_space c && all_white_space r).
  rewrite Hc. reflexivity.
Qed.

Lemma nonempty_trimEnd (s : string) :
  nonempty (trimEnd s) = negb (all_white_space s).
Proof.
  induction s as [|c r IH]; [reflexivity|].
  change (trimEnd (String c r))
    with (match trimEnd r with
          | EmptyString =>
              if is_white_space c then EmptyString else String c EmptyString
          | String _ _ as t => String c t
          end).
  change (all_white_space (String c r))
    with (is_white_space c && all_white_space r).
  destruct (trimEnd r) as [|c' r'].
  - simpl in IH. destruct (all_white_space r); [|discriminate IH].
    rewrite andb_true_r. destruct (is_white_space c); reflexivity.
  - simpl in IH. destruct (all_white_space r); [discriminate IH|].
    rewrite andb_false_r. reflexivity.
Qed.

Lemma nonempty_trim (s : string) : nonempty (trim s) = negb (all_white_space s).
Proof. unfold trim. rewrite nonempty_trimEnd. f_equal. apply all_white_space_trimStart. Qed.

(** The test in [deliver] that starts the reply lifecycle holds exactly of
    the payloads with non-whitespace text or a media reference. *)
Lemma has_visible_content_spec (payload : ReplyPayload) :
  has_visible_content payload
  = has_non_whitespace_text payload || has_media_reference payload.
Proof.
  unfold has_visible_content, has_non_whitespace_text, has_media_reference.
  assert (Htext :
            Nat.ltb 0 (String.length (default "" (trim <$> text payload)))
            = match text payload with
              | Some t => negb (all_white_space t)
              | None => false
              end).
  { destruct (text payload) as [t|]; [|reflexivity]. simpl.
    rewrite <- nonempty_trim. destruct (trim t); reflexivity. }
  assert (Hurl :
            truthy (mediaUrl payload)
            = match mediaUrl payload with
              | Some (String _ _) => true
              | _ => false
              end).
  { destruct (mediaUrl payload) as [[|c u]|]; reflexivity. }
  assert (Hurls :
            match mediaUrls payload with
            | Some urls => Nat.ltb 0 (length urls)
            | None => false
            end
            = match mediaUrls payload with
              | Some (_ :: _) => true
              | _ => false
              end).
  { destruct (mediaUrls payload) as [[|u us]|]; reflexivity. }
  rewrite Htext, Hurl, Hurls. symmetry. apply orb_assoc.
Qed.

Lemma perform_lifecycle_view (op : Operation) (w : World') :
  lifecycle_view (perform imports params op w)
  = if triggers op then start_view params (lifecycle_view w) else lifecycle_view w.
Proof.
  destruct op as [|kind payload meta]; simpl.
  - apply startReplyLifecycleOnce_view.
  - rewrite <- has_visible_content_spec. apply deliver_lifecycle_view.
Qed.

(** The latch is set by the first trigger, which is also the only call of
    [onReplyStart]. *)
Lemma perform_all_lifecycle_view (ops : list Operation) (w : World') :
  lifecycle_view (perform_all imports params ops w)
  = (fst (lifecycle_view w) || existsb triggers ops,
     snd (lifecycle_view w)
     + (if negb (fst (lifecycle_view w)) && existsb triggers ops && has_callback params
        then 1 else 0)).
Proof.
  revert w. induction ops as [|op ops IH]; intros w.
  - change (perform_all imports params [] w) with w.
    destruct (lifecycle_view w) as [b n]. simpl.
    rewrite orb_false_r, andb_false_r. simpl. f_equal. lia.
  - change (perform_all imports params (op :: ops) w)
      with (perform_all imports params ops (perform imports params op w)).
    rewrite IH, perform_lifecycle_view. simpl existsb.
    destruct (triggers op), (lifecycle_view w) as [b n]; unfold start_view; simpl.
    + destruct b, (existsb triggers ops), (has_callback params); simpl; f_equal; lia.
    + reflexivity.
Qed.

Lemma fresh_lifecycle_view : lifecycle_view fresh' = (false, 0).
Proof. reflexivity. Qed.

Lemma count_after (ops : list Operation) :
  count_calls is_onReplyStart (trace (perform_all imports params ops fresh'))
  = if existsb triggers ops && has_callback params then 1 else 0.
Proof.
  change (snd (lifecycle_view (perform_all imports params ops fresh')) =
          if existsb triggers ops && has_callback params then 1 else 0).
  rewrite perform_all_lifecycle_view, fresh_lifecycle_view. reflexivity.
Qed.

(** C7: over any sequence of [startReplyLifecycle()] and [deliver()] calls
    on one coordinator [onReplyStart] is called at most once; never when no
    call is a direct start or a delivery with non-whitespace text or a media
    reference; exactly once when there is such a call (and a callback was
    given); and a delivery of the empty payload leaves the latch and the
    number of [onReplyStart] calls as they were, wherever it occurs. *)
Theorem reply_start_fires_once (ops : list Operation) :
  let fired :=
    count_calls is_onReplyStart (trace (perform_all imports params ops fresh')) in
  (fired ≤ 1)%nat
  ∧ (existsb triggers ops = false → fired = 0)
  ∧ (is_Some (onReplyStart params) → existsb triggers ops = true → fired = 1)
  ∧ (∀ (w : World') kind meta,
       lifecycle_view
         (perform imports params
            (Deliver kind {| text := None; mediaUrl := None; mediaUrls := None |} meta) w)
       = lifecycle_view w).
Proof.
  cbv zeta. rewrite count_after. repeat split.
  - destruct (existsb triggers ops && has_callback params); lia.
  - intros ->. reflexivity.
  - intros [callback Hcb] ->. unfold has_callback. rewrite Hcb. reflexivity.
  - intros w kind meta. rewrite perform_lifecycle_view. reflexivity.
Qed.

Lemma hidden_no_trigger (ops : list Operation) :
  Forall hidden ops → existsb triggers ops = false.
Proof.
  induction 1 as [|op ops (kind & payload & meta & -> & Htext & Hmedia) _ IH]; simpl.
  - reflexivity.
  - rewrite Htext, Hmedia, IH. reflexivity.
Qed.

(** C3: in a turn that only delivers payloads without visible content
    (neither non-whitespace text nor a media reference) and never calls
    [startReplyLifecycle] directly, [onReplyStart] is not called; and when
    such deliveries are followed by one whose payload has non-whitespace
    text or a media reference, [onReplyStart] has not been called before
    that delivery, has been called once after it, and stays called once
    whatever follows. *)
Theorem reply_start_on_first_visible_delivery :
  (∀ ops, Forall hidden ops →
     count_calls is_onReplyStart (trace (perform_all imports params ops fresh')) = 0)
  ∧ (∀ before kind payload meta after,
       is_Some (onReplyStart params) →
       Forall hidden before →
       has_non_whitespace_text payload = true ∨ has_media_reference payload = true →
       count_calls is_onReplyStart
         (trace (perform_all imports params before fresh')) = 0
       ∧ count_calls is_onReplyStart
           (trace (perform_all imports params
                     (before ++ [Deliver kind payload meta]) fresh')) = 1
       ∧ count_calls is_onReplyStart
           (trace (perform_all imports params
                     (before ++ Deliver kind payload meta :: after) fresh')) = 1).
Proof.
  split.
  - intros ops Hhid. rewrite count_after, (hidden_no_trigger _ Hhid). reflexivity.
  - intros before kind payload meta after [callback Hcb] Hhid Hvis.
    assert (Htrigger :
              has_non_whitespace_text payload || has_media_reference payload = true)
      by (destruct Hvis as [-> | ->]; [reflexivity | apply orb_true_r]).
    rewrite !count_after, !existsb_app, (hidden_no_trigger _ Hhid).
    unfold has_callback. rewrite Hcb. simpl. rewrite Htrigger. auto.
Qed.

(** ** Block accumulation *)

Lemma deliver_block_view (kind : ReplyDispatchKind) (payload : ReplyPayload)
    (meta : option AcpDispatchDeliveryMeta) (w : World') :
  block_view (snd (deliver' kind payload meta w))
  = if is_block kind && has_text payload
    then block_view
           {| state := append_block (default "" (text payload)) (state w);
              trace := trace w |}
    else block_view w.
Proof.
  unfold deliver. erewrite bind_returned by apply when_modify.
  match goal with
  | |- block_view (snd (?rest ?w1)) = _ =>
      assert (Hrest : keeps block_view rest)
  end.
  { unfold startReplyLifecycleOnce, tryEditToolMessage.
    keeps_walk ltac:(intros; reflexivity). }
  rewrite Hrest. destruct w, (is_block kind && has_text payload); reflexivity.
Qed.

Lemma append_assoc (a b c : string) : (a +:+ b) +:+ c = a +:+ b +:+ c.
Proof.
  induction a as [|x a IH]; [reflexivity|].
  change (String x ((a +:+ b) +:+ c) = String x (a +:+ b +:+ c)).
  f_equal. exact IH.
Qed.

Lemma has_text_blank (payload : ReplyPayload) :
  trim (default "" (text payload)) = "" → has_text payload = false.
Proof.
  unfold has_text. destruct (text payload) as [t|]; simpl; [|reflexivity].
  intros ->. reflexivity.
Qed.

Lemma has_text_visible (payload : ReplyPayload) (t : string) :
  text payload = Some t → trim t ≠ "" → has_text payload = true.
Proof.
  intros Ht Hne. unfold has_text. rewrite Ht. simpl.
  destruct (trim t); [congruence | reflexivity].
Qed.

(** C6: block deliveries of ["a"] and then ["b"] to a new coordinator leave
    the accumulated text ["a\nb"] and the block count 2; a delivery whose
    text is absent, empty or white space only leaves both as they were; and
    a block delivery with other text appends the text, after a newline
    exactly when the accumulated text was not empty, and adds one to the
    count. *)
Theorem block_accumulation :
  (∀ p1 p2 meta1 meta2,
     text p1 = Some "a" → text p2 = Some "b" →
     let w :=
       perform_all imports params [Deliver block p1 meta1; Deliver block p2 meta2]
         fresh' in
     getAccumulatedBlockText w = "a" +:+ newline +:+ "b" ∧ getBlockCount w = 2)
  ∧ (∀ (w : World') kind payload meta,
       trim (default "" (text payload)) = "" →
       let w' := perform imports params (Deliver kind payload meta) w in
       getAccumulatedBlockText w' = getAccumulatedBlockText w
       ∧ getBlockCount w' = getBlockCount w)
  ∧ (∀ (w : World') payload meta t,
       text payload = Some t → trim t ≠ "" →
       let w' := perform imports params (Deliver block payload meta) w in
       getAccumulatedBlockText w'
       = (if nonempty (getAccumulatedBlockText w)
          then getAccumulatedBlockText w +:+ newline +:+ t
          else t)
       ∧ getBlockCount w' = S (getBlockCount w)).
Proof.
  split; [|split].
  - intros p1 p2 meta1 meta2 H1 H2. cbv zeta.
    change (perform_all imports params [Deliver block p1 meta1; Deliver block p2 meta2] fresh')
      with (snd (deliver' block p2 meta2 (snd (deliver' block p1 meta1 fresh')))).
    pose proof (deliver_block_view block p1 meta1 fresh') as V1.
    rewrite (has_text_visible p1 "a" H1) in V1 by discriminate.
    pose proof (deliver_block_view block p2 meta2 (snd (deliver' block p1 meta1 fresh'))) as V2.
    rewrite (has_text_visible p2 "b" H2) in V2 by discriminate.
    rewrite H1 in V1. rewrite H2 in V2.
    unfold block_view in V1, V2. simpl in V1, V2.
    injection V1 as Ha Hn. injection V2 as Hb Hm.
    unfold getAccumulatedBlockText, getBlockCount.
    rewrite Hb, Hm, Ha, Hn. split; reflexivity.
  - intros w kind payload meta Hblank. cbv zeta. simpl perform.
    pose proof (deliver_block_view kind payload meta w) as V.
    rewrite (has_text_blank _ Hblank), andb_false_r in V.
    unfold block_view in V. injection V as Ha Hn. auto.
  - intros w payload meta t Ht Hne. cbv zeta. simpl perform.
    pose proof (deliver_block_view block payload meta w) as V.
    rewrite (has_text_visible _ _ Ht Hne), Ht in V.
    unfold block_view in V. simpl in V. injection V as Ha Hn.
    unfold getAccumulatedBlockText, getBlockCount. rewrite Ha, Hn. split; [|lia].
    destruct (accumulatedBlockText (state w)); simpl; [reflexivity|].
    rewrite append_assoc. reflexivity.
Qed.

(** ** The direct dispatch path *)

Lemma routing_target_none :
  shouldRouteToOriginating params = false
  ∨ truthy (originatingChannel params) = false
  ∨ truthy (originatingTo params) = false →
  routing_target params = None.
Proof.
  unfold routing_target.
  destruct (shouldRouteToOriginating params); [|reflexivity].
  destruct (originatingChannel params) as [c|], (originatingTo params) as [t|];
    simpl; try reflexivity.
  intros [H|[->| ->]]; [discriminate|reflexivity|].
  rewrite andb_false_r. reflexivity.
Qed.

Lemma deliver_direct_keeps_counts (kind : ReplyDispatchKind) (payload : ReplyPayload)
    (meta : option AcpDispatchDeliveryMeta) :
  routing_target params = None →
  keeps (getRoutedCounts (OpenClawConfig := OpenClawConfig) (TtsAutoMode := TtsAutoMode))
    (deliver' kind payload meta).
Proof.
  intros Hdirect. unfold deliver, startReplyLifecycleOnce. rewrite Hdirect.
  keeps_walk ltac:(intros; reflexivity).
Qed.

Lemma startReplyLifecycleOnce_keeps_counts :
  keeps (getRoutedCounts (OpenClawConfig := OpenClawConfig) (TtsAutoMode := TtsAutoMode))
    (startReplyLifecycleOnce params).
Proof.
  unfold startReplyLifecycleOnce. keeps_walk ltac:(intros; reflexivity).
Qed.

(** When the callback and the TTS transform return, the lifecycle step and
    the transform leave a world from which the routing decision is taken. *)
Lemma lifecycle_step_returns (b : bool) (w : World') :
  (∀ callback, onReplyStart params = Some callback → total callback) →
  ∃ w2,
    when b (startReplyLifecycleOnce params) w = (Returns tt, w2)
    ∧ toolMessageByCallId (state w2) = toolMessageByCallId (state w)
    ∧ routedCounts (state w2) = routedCounts (state w)
    ∧ (∀ q : Call' → bool, q OnReplyStart = false →
         count_calls q (trace w2) = count_calls q (trace w)).
Proof.
  intros Hcb. destruct w as [s t], b; simpl.
  2:{ eexists. split; [reflexivity|]. auto. }
  unfold startReplyLifecycleOnce, bind, read. simpl.
  destruct (startedReplyLifecycle s).
  { eexists. split; [reflexivity|]. auto. }
  simpl. destruct (onReplyStart params) as [callback|] eqn:Hc.
  - unfold call. simpl. destruct (Hcb callback eq_refl t OnReplyStart) as [[] ->].
    eexists. split; [reflexivity|]. simpl. repeat split.
    intros q Hq. unfold count_calls. simpl. rewrite Hq. reflexivity.
  - eexists. split; [reflexivity|]. auto.
Qed.

(** The calls of the lifecycle step: [onReplyStart], once, when the payload
    has non-whitespace text or a media reference, the lifecycle has not
    started and a callback was given; none otherwise. *)
Lemma lifecycle_step_trace (payload : ReplyPayload) (w : World') :
  (∀ callback, onReplyStart params = Some callback → total callback) →
  ∃ w2,
    when (has_visible_content payload) (startReplyLifecycleOnce params) w
    = (Returns tt, w2)
    ∧ trace w2
      = (if (has_non_whitespace_text payload || has_media_reference payload)
            && negb (startedReplyLifecycle (state w)) && has_callback params
         then [OnReplyStart] else [])
        ++ trace w.
Proof.
  intros Hcb. rewrite <- has_visible_content_spec. unfold has_callback.
  destruct w as [s t]. destruct (has_visible_content payload); simpl.
  2:{ eexists. split; reflexivity. }
  unfold startReplyLifecycleOnce, bind, read. simpl.
  destruct (startedReplyLifecycle s).
  { eexists. split; reflexivity. }
  simpl. destruct (onReplyStart params) as [callback|] eqn:Hc.
  - unfold call. simpl. destruct (Hcb callback eq_refl t OnReplyStart) as [[] ->].
    eexists. split; reflexivity.
  - eexists. split; reflexivity.
Qed.

(** C9, as the code has it: when the coordinator does not route to an
    originating channel ([shouldRouteToOriginating] is false, or the
    channel or the address is missing), no call changes a routed counter,
    so the counters read zero after any sequence of calls on a new
    coordinator; and, provided the [onReplyStart] callback and the TTS
    transform return, a [deliver] adds to the calls made so far the
    lifecycle call (if it is due), the TTS transform of the payload and
    then one dispatcher call and no other: the method of the kind, applied
    to the transformed payload, whose result is the result of [deliver]. *)
Theorem direct_dispatch_counts_nothing :
  shouldRouteToOriginating params = false
  ∨ truthy (originatingChannel params) = false
  ∨ truthy (originatingTo params) = false →
  (∀ (w : World') kind payload meta,
     getRoutedCounts (snd (deliver' kind payload meta w)) = getRoutedCounts w)
  ∧ (∀ ops, getRoutedCounts (perform_all imports params ops fresh') = zero_counts)
  ∧ ((∀ callback, onReplyStart params = Some callback → total callback) →
     total (maybeApplyTtsToPayload imports) →
     ∀ (w : World') kind payload meta,
     ∃ ttsPayload,
       let before :=
         (if (has_non_whitespace_text payload || has_media_reference payload)
             && negb (startedReplyLifecycle (state w)) && has_callback params
          then [OnReplyStart] else [])
         ++ trace w in
       let request :=
         MaybeApplyTtsToPayload payload (cfg params) (ttsChannel params) kind
           (inboundAudio params) (sessionTtsAuto params) in
       maybeApplyTtsToPayload imports before request = Returns ttsPayload
       ∧ trace (snd (deliver' kind payload meta w))
         = direct_call kind ttsPayload :: request :: before
       ∧ fst (deliver' kind payload meta w)
         = direct_sink params kind (request :: before) (direct_call kind ttsPayload)).
Proof.
  intros Hdirect. apply routing_target_none in Hdirect. split; [|split].
  - intros w kind payload meta. apply deliver_direct_keeps_counts, Hdirect.
  - intros ops.
    change zero_counts with (getRoutedCounts fresh').
    generalize fresh'. induction ops as [|op ops IH]; intros w; [reflexivity|].
    change (perform_all imports params (op :: ops) w)
      with (perform_all imports params ops (perform imports params op w)).
    rewrite IH. destruct op as [|kind payload meta]; simpl.
    + apply startReplyLifecycleOnce_keeps_counts.
    + apply deliver_direct_keeps_counts, Hdirect.
  - intros Hcb Htts w kind payload meta. unfold deliver.
    erewrite bind_returned by apply when_modify.
    match goal with
    | |- context [bind (when _ _) ?k ?w1] =>
        destruct (lifecycle_step_trace payload w1 Hcb) as (w2 & Hw2 & Htrace);
        rewrite (bind_returned _ _ _ _ _ Hw2)
    end.
    assert (Hbefore :
              trace w2
              = (if (has_non_whitespace_text payload || has_media_reference payload)
                    && negb (startedReplyLifecycle (state w)) && has_callback params
                 then [OnReplyStart] else [])
                ++ trace w).
    { rewrite Htrace. destruct w, (is_block kind && has_text payload); reflexivity. }
    clear Htrace. cbv zeta. rewrite <- Hbefore.
    rewrite Hdirect. destruct w2 as [s2 t2]. unfold bind, call.
    cbn [state trace fst snd].
    match goal with
    | |- context [maybeApplyTtsToPayload imports t2 ?c] =>
        destruct (Htts t2 c) as [ttsPayload Hp]
    end.
    exists ttsPayload. rewrite Hp. split; [reflexivity|].
    destruct kind; cbn [direct_call direct_sink fst snd state trace];
      split; reflexivity.
Qed.

(** ** Exceptions *)

Lemma returns_ret {A} (a : A) : returns (ret a : M' A).
Proof. intros w. exists a. reflexivity. Qed.

Lemma returns_read : returns (read : M' _).
Proof. intros w. eexists. reflexivity. Qed.

Lemma returns_modify (f : AcpDispatchDeliveryState → AcpDispatchDeliveryState) :
  returns (modify f : M' unit).
Proof. intros w. exists tt. reflexivity. Qed.

Lemma returns_log (line : string) : returns (logVerbose line : M' unit).
Proof. intros w. exists tt. reflexivity. Qed.

Lemma returns_call {A} (f : Collaborator OpenClawConfig TtsAutoMode A) (c : Call') :
  total f → returns (call f c).
Proof. intros Hf w. destruct (Hf (trace w) c) as [a Ha]. exists a. exact Ha. Qed.

Lemma returns_bind {A B} (m : M' A) (k : A → M' B) :
  returns m → (∀ a, returns (k a)) → returns (bind m k).
Proof.
  intros Hm Hk w. unfold bind. destruct (Hm w) as [a Ha].
  destruct (m w) as [[a'|e] w1]; simpl in Ha; [|discriminate]. apply Hk.
Qed.

Lemma returns_when (b : bool) (m : M' unit) : returns m → returns (when b m).
Proof. intros Hm. destruct b; [exact Hm | apply returns_ret]. Qed.

(** Whatever the guarded computation does, a handler that returns makes the
    whole return. *)
Lemma returns_try_catch {A} (m : M' A) (handler : thrown → M' A) :
  (∀ e, returns (handler e)) → returns (try_catch m handler).
Proof.
  intros Hh w. unfold try_catch. destruct (m w) as [[a|e] w1].
  - exists a. reflexivity.
  - apply Hh.
Qed.

Ltac returns_walk :=
  repeat first
    [ apply returns_ret
    | apply returns_read
    | apply returns_modify
    | apply returns_log
    | apply returns_try_catch
    | apply returns_bind
    | apply returns_when
    | apply returns_call; assumption
    | progress intros
    | match goal with
      | |- returns (match ?x with _ => _ end) => destruct x eqn:?
      end ].

(** C4, as the code has it: for every kind, payload and meta, and whatever
    the message action does, [deliver] returns a boolean provided the
    [onReplyStart] callback, the TTS transform, the route-reply sink and
    the dispatcher methods return; a throwing message action is caught. *)
Theorem deliver_returns_a_boolean :
  (∀ callback, onReplyStart params = Some callback → total callback) →
  total (maybeApplyTtsToPayload imports) →
  total (routeReply imports) →
  total (sendToolResult (dispatcher params)) →
  total (sendBlockReply (dispatcher params)) →
  total (sendFinalReply (dispatcher params)) →
  ∀ kind payload meta (w : World'),
  ∃ accepted : bool, fst (deliver' kind payload meta w) = Returns accepted.
Proof.
  intros Hcb Htts Hroute Htool Hblock Hfinal kind payload meta.
  change (returns (deliver' kind payload meta)).
  unfold deliver, startReplyLifecycleOnce, tryEditToolMessage.
  returns_walk.
  apply returns_call, Hcb. reflexivity.
Qed.

(** ** Editing a tool message in place *)

Lemma routing_target_some (originating_channel originating_to : string) :
  shouldRouteToOriginating params = true →
  originatingChannel params = Some originating_channel →
  originating_channel ≠ "" →
  originatingTo params = Some originating_to →
  originating_to ≠ "" →
  routing_target params = Some (originating_channel, originating_to).
Proof.
  intros Hr Hc Hcne Ht Htne. unfold routing_target. rewrite Hr, Hc, Ht.
  rewrite (nonempty_true _ Hcne), (nonempty_true _ Htne). reflexivity.
Qed.

Lemma has_text_message (payload : ReplyPayload) :
  has_text payload = true →
  ∃ t, text payload = Some t ∧ nonempty (trim t) = true.
Proof.
  unfold has_text. destruct (text payload) as [t|]; [|discriminate].
  intros H. exists t. auto.
Qed.

(** C1, as the code has it: on a coordinator that routes to an originating
    channel and holds a handle for a tool call id (one without surrounding
    white space), a tool delivery with that id and [allowEdit] true whose
    payload still has non-whitespace text after the TTS transform calls the
    edit action on the recorded handle (hence with its message id); when
    that action returns, [deliver] returns true, has not called the
    route-reply sink, and has added exactly one to the tool counter. *)
Theorem edit_before_send
    (w : World') (payload : ReplyPayload) (meta : AcpDispatchDeliveryMeta)
    (id originating_channel originating_to : string) (handle : ToolMessageHandle) :
  shouldRouteToOriginating params = true →
  originatingChannel params = Some originating_channel →
  originating_channel ≠ "" →
  originatingTo params = Some originating_to →
  originating_to ≠ "" →
  toolCallId meta = Some id → trim id = id → id ≠ "" →
  allowEdit meta = Some true →
  toolMessageByCallId (state w) !! id = Some handle →
  messageId handle ≠ "" →
  (∀ callback, onReplyStart params = Some callback → total callback) →
  (∀ history,
     ∃ ttsPayload,
       maybeApplyTtsToPayload imports history
         (MaybeApplyTtsToPayload payload (cfg params) (ttsChannel params) tool
            (inboundAudio params) (sessionTtsAuto params)) = Returns ttsPayload
       ∧ has_text ttsPayload = true) →
  total (runMessageAction imports) →
  ∃ (message : string) (history : list Call') (w' : World'),
    deliver' tool payload (Some meta) w = (Returns true, w')
    ∧ trace w'
      = RunMessageAction (cfg params) "edit" handle message (SessionKey (ctx params))
        :: history
    ∧ count_calls is_edit (trace w') = S (count_calls is_edit (trace w))
    ∧ count_calls is_routeReply (trace w') = count_calls is_routeReply (trace w)
    ∧ getRoutedCounts w' = bump tool (getRoutedCounts w).
Proof.
  intros Hr Hc Hcne Ht Htne Hid Htrim Hidne Hallow Hhandle Hmid Hcb Htts Hedit.
  pose proof (routing_target_some _ _ Hr Hc Hcne Ht Htne) as Htarget.
  unfold deliver. erewrite bind_returned by apply when_modify.
  match goal with
  | |- context [bind (when ?b ?m) ?k ?w1] =>
      destruct (lifecycle_step_returns b w1 Hcb) as (w2 & Hw2 & Hmap & Hcounts & Hcalls);
      rewrite (bind_returned _ _ _ _ _ Hw2)
  end.
  rewrite Htarget. destruct w2 as [s2 t2]. unfold bind at 1, call at 1. simpl.
  destruct (Htts t2) as (ttsPayload & -> & Htext).
  unfold allows_edit. simpl. rewrite Hid, Hallow. simpl. rewrite Htrim.
  rewrite (nonempty_true _ Hidne).
  unfold tryEditToolMessage. rewrite Htarget.
  destruct (has_text_message _ Htext) as (t & Hpt & Hmsg).
  unfold bind, read, try_catch, call, modify. simpl.
  simpl in Hmap. rewrite Hmap.
  assert (Hlook : toolMessageByCallId (state w) !! id = Some handle) by exact Hhandle.
  destruct w as [s0 t0]. simpl in *.
  rewrite Hlook, (nonempty_true _ Hmid), Hpt. simpl. rewrite Hmsg. simpl.
  destruct (Hedit
              (MaybeApplyTtsToPayload payload (cfg params) (ttsChannel params) tool
                 (inboundAudio params) (sessionTtsAuto params) :: t2)
              (RunMessageAction (cfg params) "edit" handle (trim t)
                 (SessionKey (ctx params)))) as [[] ->].
  eexists _, _, _. split; [reflexivity|]. simpl. split; [reflexivity|].
  unfold count_calls in *. simpl.
  rewrite <- (Hcalls is_edit eq_refl), <- (Hcalls is_routeReply eq_refl).
  repeat split. unfold getRoutedCounts. simpl. rewrite Hcounts.
  destruct (is_block tool && has_text payload); reflexivity.
Qed.

(** C2, as the code has it: in the situation of C1, when the edit action
    throws, the failure is caught and logged, and the same [deliver] call
    goes on to the route-reply sink: the edit action has been tried exactly
    once, route-reply has been called exactly once, and [deliver] returns
    the [ok] flag of the route-reply answer (the sink returning). *)
Theorem edit_failure_falls_back_to_route_reply
    (w : World') (payload : ReplyPayload) (meta : AcpDispatchDeliveryMeta)
    (id originating_channel originating_to : string) (handle : ToolMessageHandle) :
  shouldRouteToOriginating params = true →
  originatingChannel params = Some originating_channel →
  originating_channel ≠ "" →
  originatingTo params = Some originating_to →
  originating_to ≠ "" →
  toolCallId meta = Some id → trim id = id → id ≠ "" →
  allowEdit meta = Some true →
  toolMessageByCallId (state w) !! id = Some handle →
  messageId handle ≠ "" →
  (∀ callback, onReplyStart params = Some callback → total callback) →
  (∀ history,
     ∃ ttsPayload,
       maybeApplyTtsToPayload imports history
         (MaybeApplyTtsToPayload payload (cfg params) (ttsChannel params) tool
            (inboundAudio params) (sessionTtsAuto params)) = Returns ttsPayload
       ∧ has_text ttsPayload = true) →
  (∀ history c, ∃ e, runMessageAction imports history c = Throws e) →
  total (routeReply imports) →
  ∃ (e : thrown) (message : string) (ttsPayload : ReplyPayload)
    (result : RouteReplyResult) (history : list Call') (w' : World'),
    let attempt :=
      RunMessageAction (cfg params) "edit" handle message (SessionKey (ctx params)) in
    let logged :=
      LogVerbose ("dispatch-acp: tool message edit failed for " +:+ id +:+ ": "
                  +:+ thrown_text e) in
    let request :=
      RouteReply ttsPayload originating_channel originating_to
        (SessionKey (ctx params)) (AccountId (ctx params))
        (MessageThreadId (ctx params)) (cfg params) in
    runMessageAction imports history attempt = Throws e
    ∧ routeReply imports (logged :: attempt :: history) request = Returns result
    ∧ deliver' tool payload (Some meta) w = (Returns (ok result), w')
    ∧ (∃ after, trace w' = after ++ request :: logged :: attempt :: history
                ∧ Forall (λ c, is_log c = true) after)
    ∧ count_calls is_edit (trace w') = S (count_calls is_edit (trace w))
    ∧ count_calls is_routeReply (trace w') = S (count_calls is_routeReply (trace w)).
Proof.
  intros Hr Hc Hcne Ht Htne Hid Htrim Hidne Hallow Hhandle Hmid Hcb Htts Hedit Hroute.
  pose proof (routing_target_some _ _ Hr Hc Hcne Ht Htne) as Htarget.
  unfold deliver. erewrite bind_returned by apply when_modify.
  match goal with
  | |- context [bind (when ?b ?m) ?k ?w1] =>
      destruct (lifecycle_step_returns b w1 Hcb) as (w2 & Hw2 & Hmap & Hcounts & Hcalls);
      rewrite (bind_returned _ _ _ _ _ Hw2)
  end.
  rewrite Htarget. destruct w2 as [s2 t2]. unfold bind at 1, call at 1. simpl.
  destruct (Htts t2) as (ttsPayload & -> & Htext).
  unfold allows_edit. simpl. rewrite Hid, Hallow. simpl. rewrite Htrim.
  rewrite (nonempty_true _ Hidne).
  unfold tryEditToolMessage. rewrite Htarget.
  destruct (has_text_message _ Htext) as (t & Hpt & Hmsg).
  unfold bind, read, try_catch, call, modify, logVerbose, ret. simpl.
  simpl in Hmap. rewrite Hmap.
  assert (Hlook : toolMessageByCallId (state w) !! id = Some handle) by exact Hhandle.
  destruct w as [s0 t0]. simpl in *.
  rewrite Hlook, (nonempty_true _ Hmid), Hpt. simpl. rewrite Hmsg. simpl.
  set (history :=
         MaybeApplyTtsToPayload payload (cfg params) (ttsChannel params) tool
           (inboundAudio params) (sessionTtsAuto params) :: t2).
  set (attempt :=
         RunMessageAction (cfg params) "edit" handle (trim t) (SessionKey (ctx params))).
  destruct (Hedit history attempt) as [e He]. rewrite He. simpl.
  set (logged :=
         LogVerbose ("dispatch-acp: tool message edit failed for " +:+ id +:+ ": "
                     +:+ thrown_text e)).
  set (request :=
         RouteReply ttsPayload originating_channel originating_to
           (SessionKey (ctx params)) (AccountId (ctx params))
           (MessageThreadId (ctx params)) (cfg params)).
  destruct (Hroute (logged :: attempt :: history) request) as [result Hres].
  rewrite Hres.
  assert (Hedits : count_calls is_edit (request :: logged :: attempt :: history)
                   = S (count_calls is_edit t0)).
  { unfold count_calls. simpl. f_equal. apply (Hcalls is_edit eq_refl). }
  assert (Hroutes : count_calls is_routeReply (request :: logged :: attempt :: history)
                    = S (count_calls is_routeReply t0)).
  { unfold count_calls. simpl. f_equal. apply (Hcalls is_routeReply eq_refl). }
  exists e, (trim t), ttsPayload, result, history.
  destruct (ok result) eqn:Hok; simpl.
  - destruct (result_messageId result) as [mid|];
      [destruct (nonempty mid)|]; simpl;
      (eexists; split; [exact He|]; split; [exact Hres|]; split; [reflexivity|];
       split; [exists nil; split; [reflexivity | constructor]|];
       split; [exact Hedits | exact Hroutes]).
  - eexists. split; [exact He|]. split; [exact Hres|]. split; [reflexivity|].
    split; [|split; [exact Hedits | exact Hroutes]].
    eexists (cons _ nil). split; [reflexivity|]. repeat constructor.
Qed.

(** ** Further properties of the coordinator *)

Lemma trim_empty : trim "" = "".
Proof. reflexivity. Qed.

Lemma has_text_nonempty (payload : ReplyPayload) :
  has_text payload = true → nonempty (default "" (text payload)) = true.
Proof.
  intros H. destruct (has_text_message _ H) as (t & Ht & Hne). rewrite Ht. simpl.
  destruct t; [discriminate Hne | reflexivity].
Qed.

Lemma block_texts_nonempty (ops : list Operation) :
  Forall (λ t, nonempty t = true) (block_texts ops).
Proof.
  induction ops as [|[|kind payload meta] ops IH]; simpl; [constructor | exact IH |].
  destruct (is_block kind && has_text payload) eqn:H; [|exact IH].
  constructor; [|exact IH]. apply has_text_nonempty.
  destruct (is_block kind); [exact H | discriminate].
Qed.

Lemma startReplyLifecycleOnce_keeps_blocks :
  keeps block_view (startReplyLifecycleOnce params : M' unit).
Proof. unfold startReplyLifecycleOnce. keeps_walk ltac:(intros; reflexivity). Qed.

Lemma perform_all_block_view (ops : list Operation) (w : World') :
  block_view (perform_all imports params ops w)
  = (fold_left accumulate (block_texts ops) (accumulatedBlockText (state w)),
     blockCount (state w) + length (block_texts ops)).
Proof.
  revert w. induction ops as [|op ops IH]; intros w.
  - simpl. unfold block_view. f_equal. lia.
  - change (perform_all imports params (op :: ops) w)
      with (perform_all imports params ops (perform imports params op w)).
    rewrite IH. destruct op as [|kind payload meta]; simpl perform.
    + pose proof (startReplyLifecycleOnce_keeps_blocks w) as V.
      unfold block_view in V. injection V as -> ->. reflexivity.
    + pose proof (deliver_block_view kind payload meta w) as V.
      simpl block_texts.
      destruct (is_block kind && has_text payload);
        unfold block_view in V; injection V as -> ->; [|reflexivity].
      simpl. f_equal. lia.
Qed.

Lemma accumulate_join (ts : list string) :
  ∀ acc, nonempty acc = true →
    fold_left accumulate ts acc = join newline (acc :: ts).
Proof.
  induction ts as [|t ts IH]; intros acc Hacc; [reflexivity|].
  change (fold_left accumulate (t :: ts) acc)
    with (fold_left accumulate ts (accumulate acc t)).
  assert (Hstep : accumulate acc t = acc +:+ newline +:+ t).
  { unfold accumulate. destruct acc; [discriminate|]. simpl Nat.ltb. cbv iota.
    apply append_assoc. }
  rewrite Hstep, IH by (apply nonempty_append, Hacc).
  destruct ts as [|t' ts]; [reflexivity|].
  change (join newline ((acc +:+ newline +:+ t) :: t' :: ts))
    with ((acc +:+ newline +:+ t) +:+ newline +:+ join newline (t' :: ts)).
  change (join newline (acc :: t :: t' :: ts))
    with (acc +:+ newline +:+ t +:+ newline +:+ join newline (t' :: ts)).
  rewrite !append_assoc. reflexivity.
Qed.

(** X9: after any sequence of calls on a new coordinator the accumulated
    block text is the texts of the block deliveries with non-whitespace
    text, in order and untrimmed, joined by single newlines, and the block
    count is their number; the other calls add nothing. *)
Theorem block_text_is_joined (ops : list Operation) :
  let w := perform_all imports params ops fresh' in
  getAccumulatedBlockText w = join newline (block_texts ops)
  ∧ getBlockCount w = length (block_texts ops).
Proof.
  cbv zeta. pose proof (perform_all_block_view ops fresh') as V.
  unfold block_view in V. injection V as Hacc Hcount.
  unfold getAccumulatedBlockText, getBlockCount. rewrite Hacc, Hcount.
  split; [|reflexivity]. simpl accumulatedBlockText.
  pose proof (block_texts_nonempty ops) as Hne.
  destruct (block_texts ops) as [|t ts]; [reflexivity|].
  inversion Hne as [|? ? Ht Hts]; subst.
  change (fold_left accumulate (t :: ts) "") with (fold_left accumulate ts t).
  apply accumulate_join, Ht.
Qed.

(** ** Which sinks a delivery reaches *)

Lemma deliver_direct_keeps (q : Call' → bool) (kind : ReplyDispatchKind)
    (payload : ReplyPayload) (meta : option AcpDispatchDeliveryMeta) :
  routing_target params = None →
  q OnReplyStart = false →
  (∀ p c ch k a t, q (MaybeApplyTtsToPayload p c ch k a t) = false) →
  (∀ p, q (SendToolResult p) = false) →
  (∀ p, q (SendBlockReply p) = false) →
  (∀ p, q (SendFinalReply p) = false) →
  keeps (λ w : World', count_calls q (trace w)) (deliver' kind payload meta).
Proof.
  intros Hdirect Hstart Htts Htool Hblock Hfinal.
  unfold deliver, startReplyLifecycleOnce. rewrite Hdirect.
  keeps_walk ltac:(intros; unfold count_calls; simpl;
                   rewrite ?Hstart, ?Htts, ?Htool, ?Hblock, ?Hfinal; reflexivity).
Qed.

Lemma deliver_routed_keeps_dispatch (kind : ReplyDispatchKind)
    (payload : ReplyPayload) (meta : option AcpDispatchDeliveryMeta) :
  is_Some (routing_target params) →
  keeps (λ w : World', count_calls is_dispatch (trace w)) (deliver' kind payload meta).
Proof.
  intros [target Htarget].
  unfold deliver, startReplyLifecycleOnce, tryEditToolMessage. rewrite Htarget.
  keeps_walk ltac:(intros; reflexivity).
Qed.

(** X10: a delivery reaches the sinks of one path only: without a routing
    target it calls neither route-reply nor the message action, and with a
    routing target it calls no dispatcher method. *)
Theorem sinks_by_configuration (w : World') (kind : ReplyDispatchKind)
    (payload : ReplyPayload) (meta : option AcpDispatchDeliveryMeta) :
  let w' := snd (deliver' kind payload meta w) in
  (routing_target params = None →
   count_calls is_routeReply (trace w') = count_calls is_routeReply (trace w)
   ∧ count_calls is_edit (trace w') = count_calls is_edit (trace w))
  ∧ (is_Some (routing_target params) →
     count_calls is_dispatch (trace w') = count_calls is_dispatch (trace w)).
Proof.
  cbv zeta. split.
  - intros Hdirect. split.
    + apply (deliver_direct_keeps is_routeReply); auto.
    + apply (deliver_direct_keeps is_edit); auto.
  - intros Hrouted. apply (deliver_routed_keeps_dispatch kind payload meta Hrouted).
Qed.

(** ** Running a delivery through all of its branches *)

(** Splits the goal on a test whose subject contains no further test. *)
Ltac split_on_a_test :=
  match goal with
  | |- context [match ?x with _ => _ end] =>
      lazymatch x with
      | context [match _ with _ => _ end] => fail
      | _ => destruct x eqn:?
      end
  end.

Ltac unfold_delivery :=
  unfold deliver, tryEditToolMessage, startReplyLifecycleOnce, when, bind,
    try_catch, read, modify, call, logVerbose, ret, allows_edit.

Ltac run_delivery :=
  repeat first
    [ progress cbn [fst snd state trace mbind option_bind fmap option_map
                    negb andb orb set_started append_block count_routed
                    remember_handle routedCounts toolMessageByCallId]
    | split_on_a_test ].

Lemma is_tool_true (kind : ReplyDispatchKind) : is_tool kind = true → kind = tool.
Proof. destruct kind; [reflexivity | discriminate | discriminate]. Qed.

Lemma deliver_routed_counts (w : World') (kind : ReplyDispatchKind)
    (payload : ReplyPayload) (meta : option AcpDispatchDeliveryMeta) :
  is_Some (routing_target params) →
  match deliver' kind payload meta w with
  | (Returns true, w') => getRoutedCounts w' = bump kind (getRoutedCounts w)
  | (_, w') => getRoutedCounts w' = getRoutedCounts w
  end.
Proof.
  intros [[originating_channel originating_to] Htarget]. destruct w as [s t].
  unfold getRoutedCounts. unfold_delivery. rewrite Htarget.
  run_delivery; try reflexivity.
  all: repeat match goal with
       | H : (_ && _)%bool = true |- _ => apply andb_prop in H as [? ?]
       | H : is_tool _ = true |- _ => apply is_tool_true in H; subst
       end; try reflexivity; try discriminate.
Qed.

(** X11: with a routing target, the counter of the delivery's kind goes up
    by one exactly when [deliver] returns true, and no counter changes when
    it returns false or throws, whatever the collaborators do. *)
Theorem routed_counter_tracks_result (w : World') (kind : ReplyDispatchKind)
    (payload : ReplyPayload) (meta : option AcpDispatchDeliveryMeta) :
  is_Some (routing_target params) →
  match deliver' kind payload meta w with
  | (Returns true, w') => getRoutedCounts w' = bump kind (getRoutedCounts w)
  | (_, w') => getRoutedCounts w' = getRoutedCounts w
  end.
Proof. apply deliver_routed_counts. Qed.

Lemma count_of_bump (kind kind' : ReplyDispatchKind) (c : RoutedCounts) :
  count_of kind (bump kind' c)
  = count_of kind c + (if same_kind kind kind' then 1 else 0).
Proof. destruct kind, kind'; simpl; lia. Qed.

Lemma perform_all_routed_counts (kind : ReplyDispatchKind) (ops : list Operation) :
  is_Some (routing_target params) →
  ∀ w : World',
    count_of kind (getRoutedCounts (perform_all imports params ops w))
    = count_of kind (getRoutedCounts w) + accepted imports params kind ops w.
Proof.
  intros Hrouted. induction ops as [|op ops IH]; intros w; [simpl; lia|].
  change (perform_all imports params (op :: ops) w)
    with (perform_all imports params ops (perform imports params op w)).
  rewrite IH. cbn [accepted]. destruct op as [|kind' payload meta].
  - cbn [accepts perform]. rewrite startReplyLifecycleOnce_keeps_counts. lia.
  - cbn [accepts perform].
    pose proof (deliver_routed_counts w kind' payload meta Hrouted) as Hstep.
    destruct (deliver' kind' payload meta w) as [[[|]|e] w1]; cbn [fst snd];
      rewrite Hstep, ?count_of_bump, ?andb_true_r, ?andb_false_r; lia.
Qed.

(** X12: with a routing target, after any sequence of calls on a new
    coordinator the counter of each kind is the number of deliveries of
    that kind that returned true, and [applyRoutedCounts] adds exactly that
    number to the caller's counter of the kind. *)
Theorem routed_counts_count_accepted (kind : ReplyDispatchKind)
    (ops : list Operation) (counts : RoutedCounts) :
  is_Some (routing_target params) →
  let w := perform_all imports params ops fresh' in
  count_of kind (getRoutedCounts w) = accepted imports params kind ops fresh'
  ∧ count_of kind (applyRoutedCounts w counts)
    = count_of kind counts + accepted imports params kind ops fresh'.
Proof.
  intros Hrouted. cbv zeta.
  pose proof (perform_all_routed_counts kind ops Hrouted fresh') as H.
  assert (Hzero : count_of kind (getRoutedCounts fresh') = 0)
    by (destruct kind; reflexivity).
  rewrite Hzero in H. simpl in H.
  split; [exact H|]. rewrite <- H. destruct kind; reflexivity.
Qed.

(** ** The recorded handles *)

Lemma routing_target_inv (originating_channel originating_to : string) :
  routing_target params = Some (originating_channel, originating_to) →
  originatingChannel params = Some originating_channel
  ∧ originatingTo params = Some originating_to.
Proof.
  unfold routing_target. destruct (shouldRouteToOriginating params); [|discriminate].
  destruct (originatingChannel params) as [c|]; [|discriminate].
  destruct (originatingTo params) as [t|]; [|discriminate].
  destruct (nonempty c && nonempty t); [|discriminate].
  intros [= -> ->]. auto.
Qed.

Lemma startReplyLifecycleOnce_keeps_handles :
  keeps (λ w : World', toolMessageByCallId (state w))
    (startReplyLifecycleOnce params : M' unit).
Proof. unfold startReplyLifecycleOnce. keeps_walk ltac:(intros; reflexivity). Qed.

Lemma deliver_handles_well_formed (w : World') (kind : ReplyDispatchKind)
    (payload : ReplyPayload) (meta : option AcpDispatchDeliveryMeta) :
  map_Forall (λ _ h, well_formed_handle params h) (toolMessageByCallId (state w)) →
  map_Forall (λ _ h, well_formed_handle params h)
    (toolMessageByCallId (state (snd (deliver' kind payload meta w)))).
Proof.
  intros Hw. destruct w as [s t]. cbn [state] in Hw. unfold_delivery.
  destruct (routing_target params) as [[originating_channel originating_to]|] eqn:Htarget;
    run_delivery; try exact Hw.
  all: apply map_Forall_insert_2; [|exact Hw].
  all: destruct (routing_target_inv _ _ Htarget) as [Hc Ht].
  all: repeat match goal with
       | H : (_ && _)%bool = true |- _ => apply andb_prop in H as [? ?]
       end.
  all: unfold well_formed_handle; cbn [messageId channel to accountId threadId];
    repeat split; auto using nonempty_neq.
Qed.

Lemma deliver_handles_stay (w : World') (kind : ReplyDispatchKind)
    (payload : ReplyPayload) (meta : option AcpDispatchDeliveryMeta) (id : string) :
  is_Some (toolMessageByCallId (state w) !! id) →
  is_Some (toolMessageByCallId (state (snd (deliver' kind payload meta w))) !! id).
Proof.
  intros Hw. destruct w as [s t]. cbn [state] in Hw. unfold_delivery.
  destruct (routing_target params) as [[originating_channel originating_to]|];
    run_delivery; try exact Hw.
  all: rewrite lookup_insert; case_decide; [eexists; reflexivity | exact Hw].
Qed.

(** X13: every handle a coordinator holds, after any sequence of calls on
    a new coordinator, has a non-empty message id and names the originating
    channel and address and the account and thread of the context; and a
    call never removes the handle of a tool call id. *)
Theorem handles_are_well_formed_and_stay (ops : list Operation) :
  map_Forall (λ _ h, well_formed_handle params h)
    (toolMessageByCallId (state (perform_all imports params ops fresh')))
  ∧ (∀ (w : World') id,
       is_Some (toolMessageByCallId (state w) !! id) →
       is_Some (toolMessageByCallId (state (perform_all imports params ops w)) !! id)).
Proof.
  split.
  - assert (Hfresh : map_Forall (λ _ h, well_formed_handle params h)
                       (toolMessageByCallId (state fresh')))
      by apply map_Forall_empty.
    revert Hfresh. generalize fresh'.
    induction ops as [|op ops IH]; intros w Hw; [exact Hw|].
    change (perform_all imports params (op :: ops) w)
      with (perform_all imports params ops (perform imports params op w)).
    apply IH. destruct op as [|kind payload meta]; cbn [perform].
    + rewrite startReplyLifecycleOnce_keeps_handles. exact Hw.
    + apply deliver_handles_well_formed, Hw.
  - induction ops as [|op ops IH]; intros w id Hw; [exact Hw|].
    change (perform_all imports params (op :: ops) w)
      with (perform_all imports params ops (perform imports params op w)).
    apply IH. destruct op as [|kind payload meta]; cbn [perform].
    + rewrite startReplyLifecycleOnce_keeps_handles. exact Hw.
    + apply deliver_handles_stay, Hw.
Qed.

(** X14: the edit action is called only on request: a delivery calls it at
    most once, and not at all when the kind is not tool, when [allowEdit]
    is not true, when there is no tool call id, or when no handle is
    recorded under the trimmed tool call id. *)
Theorem edit_only_on_request (w : World') (kind : ReplyDispatchKind)
    (payload : ReplyPayload) (meta : option AcpDispatchDeliveryMeta) :
  let w' := snd (deliver' kind payload meta w) in
  count_calls is_edit (trace w') ≤ S (count_calls is_edit (trace w))
  ∧ (is_tool kind = false
     ∨ allows_edit meta = false
     ∨ meta ≫= toolCallId = None
     ∨ (∃ id, meta ≫= toolCallId = Some id
              ∧ toolMessageByCallId (state w) !! trim id = None) →
     count_calls is_edit (trace w') = count_calls is_edit (trace w)).
Proof.
  cbv zeta. destruct w as [s t]. unfold count_calls. split.
  - unfold_delivery.
    destruct (routing_target params) as [[originating_channel originating_to]|];
      run_delivery; cbn [List.filter is_edit is_log is_routeReply String.eqb
                         Ascii.eqb Bool.eqb length]; lia.
  - intros Hno. unfold allows_edit in Hno. cbn [state] in Hno. unfold_delivery.
    destruct (routing_target params) as [[originating_channel originating_to]|];
      run_delivery; cbn [List.filter is_edit is_log is_routeReply String.eqb
                         Ascii.eqb Bool.eqb length]; try reflexivity.
    all: exfalso.
    all: repeat match goal with
         | H : (_ && _)%bool = true |- _ => apply andb_prop in H as [? ?]
         end.
    all: destruct Hno as [Hno|[Hno|[Hno|(id & Hid & Hno)]]];
      try congruence.
    all: try (match goal with
              | H : ?m ≫= allowEdit = _ |- _ => rewrite H in Hno
              end; discriminate).
    all: try (match goal with
              | H : _ <$> ?m ≫= toolCallId = _ |- _ => rewrite Hno in H
              end; discriminate).
    all: try (match goal with
              | H : _ <$> ?m ≫= toolCallId = _ |- _ =>
                  rewrite Hid in H; injection H as <-
              end; congruence).
    all: simplify_eq/=; congruence.
Qed.

(** ** Routing a new message *)

(** Without a request to edit, the routing branch of [deliver] goes
    straight to route-reply. *)
Lemma deliver_routes (w : World') (kind : ReplyDispatchKind) (payload : ReplyPayload)
    (meta : option AcpDispatchDeliveryMeta)
    (originating_channel originating_to : string) :
  routing_target params = Some (originating_channel, originating_to) →
  is_tool kind && allows_edit meta = false →
  (∀ callback, onReplyStart params = Some callback → total callback) →
  total (maybeApplyTtsToPayload imports) →
  ∃ (s2 : AcpDispatchDeliveryState) (history : list Call') (ttsPayload : ReplyPayload),
    let request :=
      RouteReply ttsPayload originating_channel originating_to
        (SessionKey (ctx params)) (AccountId (ctx params))
        (MessageThreadId (ctx params)) (cfg params) in
    (∃ before,
       let transform :=
         MaybeApplyTtsToPayload payload (cfg params) (ttsChannel params) kind
           (inboundAudio params) (sessionTtsAuto params) in
       history = transform :: before
       ∧ maybeApplyTtsToPayload imports before transform = Returns ttsPayload)
    ∧ toolMessageByCallId s2 = toolMessageByCallId (state w)
    ∧ routedCounts s2 = routedCounts (state w)
    ∧ deliver' kind payload meta w
      = match routeReply imports history request with
        | Returns result =>
            if negb (ok result) then
              (Returns false,
               {| state := s2;
                  trace :=
                    LogVerbose
                      ("dispatch-acp: route-reply (acp/" +:+ kind_name kind
                       +:+ ") failed: "
                       +:+ default "unknown error" (result_error result))
                    :: request :: history |})
            else
              (Returns true,
               {| state :=
                    count_routed kind
                      (match meta ≫= toolCallId, result_messageId result with
                       | Some id, Some mid =>
                           if is_tool kind && nonempty id && nonempty mid
                           then remember_handle id
                                  {| channel := originating_channel;
                                     accountId := AccountId (ctx params);
                                     to := originating_to;
                                     threadId := MessageThreadId (ctx params);
                                     messageId := mid |} s2
                           else s2
                       | _, _ => s2
                       end);
                  trace := request :: history |})
        | Throws e => (Throws e, {| state := s2; trace := request :: history |})
        end.
Proof.
  intros Htarget Hnoedit Hcb Htts.
  unfold deliver. erewrite bind_returned by apply when_modify.
  match goal with
  | |- context [bind (when ?b ?m) ?k ?w1] =>
      destruct (lifecycle_step_returns b w1 Hcb) as (w2 & Hw2 & Hmap & Hcounts & _);
      rewrite (bind_returned _ _ _ _ _ Hw2)
  end.
  rewrite Htarget. destruct w2 as [s2 t2]. unfold bind at 1, call at 1.
  cbn [state trace fst snd] in *.
  match goal with
  | |- context [maybeApplyTtsToPayload imports t2 ?c] =>
      destruct (Htts t2 c) as [ttsPayload Hp]; rewrite Hp;
      exists s2, (c :: t2), ttsPayload
  end.
  cbv zeta. split.
  { exists t2. split; [reflexivity | exact Hp]. }
  split.
  { rewrite Hmap. destruct w, (is_block kind && has_text payload); reflexivity. }
  split.
  { rewrite Hcounts. destruct w, (is_block kind && has_text payload); reflexivity. }
  assert (Hedit :
            ∀ toolCallId : option string,
              match toolCallId with
              | Some id =>
                  if is_tool kind && allows_edit meta && nonempty id
                  then tryEditToolMessage imports params ttsPayload id
                  else ret false
              | None => ret false
              end = (ret false : M' bool)).
  { intros [id|]; [|reflexivity]. rewrite Hnoedit. reflexivity. }
  rewrite Hedit. unfold bind, ret, call, logVerbose, modify, when.
  cbn [state trace fst snd].
  destruct (routeReply imports _ _) as [result|e]; [|reflexivity].
  destruct (negb (ok result)); [reflexivity|].
  destruct (meta ≫= toolCallId) as [id|]; [|reflexivity].
  destruct (result_messageId result) as [mid|]; [|reflexivity].
  destruct (is_tool kind && nonempty id && nonempty mid); reflexivity.
Qed.

(** X15: when a tool delivery with a non-empty tool call id, made without
    asking for an edit, is routed and route-reply answers [ok] with a
    non-empty message id, [deliver] returns true and the handle stored
    under that tool call id (as given, untrimmed) is the originating
    channel and address, the account and thread of the context and that
    message id; no other tool call id is touched. *)
Theorem routed_tool_message_is_remembered
    (w : World') (payload : ReplyPayload) (meta : AcpDispatchDeliveryMeta)
    (id mid originating_channel originating_to : string) :
  routing_target params = Some (originating_channel, originating_to) →
  toolCallId meta = Some id → id ≠ "" →
  allowEdit meta ≠ Some true →
  mid ≠ "" →
  (∀ callback, onReplyStart params = Some callback → total callback) →
  total (maybeApplyTtsToPayload imports) →
  (∀ history c,
     ∃ result, routeReply imports history c = Returns result
               ∧ ok result = true ∧ result_messageId result = Some mid) →
  let handle :=
    {| channel := originating_channel;
       accountId := AccountId (ctx params);
       to := originating_to;
       threadId := MessageThreadId (ctx params);
       messageId := mid |} in
  ∃ w' : World',
    deliver' tool payload (Some meta) w = (Returns true, w')
    ∧ toolMessageByCallId (state w') !! id = Some handle
    ∧ (∀ other, other ≠ id →
         toolMessageByCallId (state w') !! other
         = toolMessageByCallId (state w) !! other).
Proof.
  intros Htarget Hid Hidne Hallow Hmid Hcb Htts Hroute handle.
  destruct (deliver_routes w tool payload (Some meta) _ _ Htarget) as
    (s2 & history & ttsPayload & _ & Hmap & _ & Hrun); [|exact Hcb|exact Htts|].
  { unfold allows_edit. cbn [mbind option_bind].
    destruct (allowEdit meta) as [[|]|]; [congruence|reflexivity|reflexivity]. }
  cbv zeta in Hrun. rewrite Hrun.
  match goal with
  | |- context [routeReply imports history ?c] =>
      destruct (Hroute history c) as (result & -> & Hok & Hres)
  end.
  rewrite Hok, Hres. cbn [negb mbind option_bind]. rewrite Hid.
  rewrite (nonempty_true _ Hidne), (nonempty_true _ Hmid). cbn [is_tool andb].
  eexists. split; [reflexivity|]. cbn [state count_routed remember_handle toolMessageByCallId].
  rewrite Hmap. split.
  - apply lookup_insert_eq.
  - intros other Hother. apply lookup_insert_ne. congruence.
Qed.

(** X16: when a delivery made without asking for an edit is routed and
    route-reply answers with [ok] false, [deliver] returns false; route-reply
    was given the payload the TTS transform returned, the last call is the
    log line naming the kind and the sink's error text (["unknown error"]
    when there is none), and neither a handle nor a counter changes. *)
Theorem route_failure_is_reported
    (w : World') (kind : ReplyDispatchKind) (payload : ReplyPayload)
    (meta : option AcpDispatchDeliveryMeta)
    (originating_channel originating_to : string) :
  routing_target params = Some (originating_channel, originating_to) →
  is_tool kind && allows_edit meta = false →
  (∀ callback, onReplyStart params = Some callback → total callback) →
  total (maybeApplyTtsToPayload imports) →
  (∀ history c,
     ∃ result, routeReply imports history c = Returns result ∧ ok result = false) →
  ∃ (result : RouteReplyResult) (ttsPayload : ReplyPayload) (history : list Call')
    (w' : World'),
    let request :=
      RouteReply ttsPayload originating_channel originating_to
        (SessionKey (ctx params)) (AccountId (ctx params))
        (MessageThreadId (ctx params)) (cfg params) in
    (∃ before,
       let transform :=
         MaybeApplyTtsToPayload payload (cfg params) (ttsChannel params) kind
           (inboundAudio params) (sessionTtsAuto params) in
       history = transform :: before
       ∧ maybeApplyTtsToPayload imports before transform = Returns ttsPayload)
    ∧ routeReply imports history request = Returns result
    ∧ deliver' kind payload meta w = (Returns false, w')
    ∧ trace w'
      = LogVerbose
          ("dispatch-acp: route-reply (acp/" +:+ kind_name kind +:+ ") failed: "
           +:+ default "unknown error" (result_error result))
        :: request :: history
    ∧ toolMessageByCallId (state w') = toolMessageByCallId (state w)
    ∧ getRoutedCounts w' = getRoutedCounts w.
Proof.
  intros Htarget Hnoedit Hcb Htts Hroute.
  destruct (deliver_routes w kind payload meta _ _ Htarget Hnoedit Hcb Htts) as
    (s2 & history & ttsPayload & Hbefore & Hmap & Hcounts & Hrun).
  cbv zeta in Hrun.
  match type of Hrun with
  | context [routeReply imports history ?c] =>
      destruct (Hroute history c) as (result & Hres & Hok)
  end.
  rewrite Hres, Hok in Hrun. cbn [negb] in Hrun.
  exists result, ttsPayload, history. eexists. cbv zeta.
  split; [exact Hbefore|].
  split; [exact Hres|]. split; [exact Hrun|]. cbn [state trace].
  split; [reflexivity|]. split; [exact Hmap | exact Hcounts].
Qed.

(** ** Exceptions before a sink is reached *)

(** X17: when the payload has visible content, the lifecycle has not
    started and the [onReplyStart] callback throws, [deliver] throws the
    same value without calling the TTS transform or any sink; the latch is
    set all the same, and the text of a block delivery has already been
    accumulated. *)
Theorem throwing_reply_start_stops_delivery
    (w : World') (kind : ReplyDispatchKind) (payload : ReplyPayload)
    (meta : option AcpDispatchDeliveryMeta)
    (callback : Collaborator OpenClawConfig TtsAutoMode unit) (e : thrown) :
  onReplyStart params = Some callback →
  has_visible_content payload = true →
  startedReplyLifecycle (state w) = false →
  callback (trace w) OnReplyStart = Throws e →
  ∃ w' : World',
    deliver' kind payload meta w = (Throws e, w')
    ∧ trace w' = OnReplyStart :: trace w
    ∧ startedReplyLifecycle (state w') = true
    ∧ block_view w'
      = (if is_block kind && has_text payload
         then (accumulate (accumulatedBlockText (state w))
                 (default "" (text payload)),
               blockCount (state w) + 1)
         else block_view w).
Proof.
  intros Hcb Hvis Hstarted Hthrow. destruct w as [s t]. cbn [state trace] in *.
  unfold deliver. erewrite bind_returned by apply when_modify.
  rewrite Hvis. unfold when, startReplyLifecycleOnce, bind, read, modify, call.
  cbn [state trace fst snd].
  assert (Hs : startedReplyLifecycle
                 (if is_block kind && has_text payload
                  then append_block (default "" (text payload)) s else s) = false)
    by (destruct (is_block kind && has_text payload); exact Hstarted).
  rewrite Hs, Hcb. cbn [state trace fst snd]. rewrite Hthrow.
  eexists. split; [reflexivity|]. cbn [state trace].
  repeat split. destruct (is_block kind && has_text payload); reflexivity.
Qed.

(** X18: when the TTS transform throws, [deliver] throws too and no sink
    has been called: neither route-reply, nor the message action, nor a
    dispatcher method. *)
Theorem transform_failure_reaches_no_sink
    (w : World') (kind : ReplyDispatchKind) (payload : ReplyPayload)
    (meta : option AcpDispatchDeliveryMeta) :
  (∀ history c, ∃ e, maybeApplyTtsToPayload imports history c = Throws e) →
  let w' := snd (deliver' kind payload meta w) in
  (∃ e, fst (deliver' kind payload meta w) = Throws e)
  ∧ count_calls is_routeReply (trace w') = count_calls is_routeReply (trace w)
  ∧ count_calls is_edit (trace w') = count_calls is_edit (trace w)
  ∧ count_calls is_dispatch (trace w') = count_calls is_dispatch (trace w).
Proof.
  intros Htts. cbv zeta. destruct w as [s t]. unfold_delivery.
  repeat first
    [ progress cbn [fst snd state trace]
    | match goal with
      | |- context [maybeApplyTtsToPayload imports ?h ?c] =>
          let e := fresh "e" in
          let He := fresh "He" in
          destruct (Htts h c) as [e He]; rewrite He
      end
    | split_on_a_test ];
  (split; [eexists; reflexivity | repeat split]).
Qed.

End DeliveryFacts.

(** * The properties on the tests' inputs *)

Section Examples.

Import Js Events Delivery SampleHost SampleTurn.

(** The cases of the projector's test file. *)
Example parses_usage_update :
  SampleHost.parsePromptEventLine usage_line
  = Some (Status "usage updated: 12/500" (Some "usage_update") (Some 12%Z)
            (Some 500%Z)).
Proof. vm_compute. reflexivity. Qed.

Example parses_tool_call_update :
  SampleHost.parsePromptEventLine
    (quoted "{'jsonrpc':'2.0','method':'session/update','params':{'sessionId':'s1','update':{'sessionUpdate':'tool_call_update','toolCallId':'call_ABC123','status':'in_progress'}}}")
  = Some (Tool_call "tool call (in_progress)" "tool_call_update"
            (Some "call_ABC123") (Some "in_progress") "tool call").
Proof. vm_compute. reflexivity. Qed.

Example parses_simplified_lines :
  SampleHost.parsePromptEventLine (quoted "{'type':'text','content':'alpha'}")
  = Some (Text_delta "alpha" output None)
  ∧ SampleHost.parsePromptEventLine (quoted "{'type':'done','stopReason':'end_turn'}")
    = Some (Done (Some "end_turn")).
Proof. split; vm_compute; reflexivity. Qed.

(** The cases of the coordinator's test file. *)
Example lifecycle_starts_once_in_tests :
  count_calls is_onReplyStart
    (trace (perform_all imports_edit_ok direct_params
              [StartReplyLifecycle; Deliver final (text_payload "hello") None;
               StartReplyLifecycle; Deliver block (text_payload "world") None]
              fresh)) = 1
  ∧ count_calls is_onReplyStart
      (trace (perform_all imports_edit_ok direct_params
                [Deliver final empty_payload None] fresh)) = 0.
Proof. split; vm_compute; reflexivity. Qed.

Lemma total_always {A} (a : A) : total (λ _ _, Returns a : outcome A) (OpenClawConfig := Config) (TtsAutoMode := TtsAuto).
Proof. intros history c. exists a. reflexivity. Qed.

Lemma callback_total (params : Params Config TtsAuto) :
  onReplyStart params = Some reply_start_ok →
  ∀ callback, onReplyStart params = Some callback → total callback.
Proof. intros -> callback [= <-]. apply total_always. Qed.

Lemma tts_passthrough_total : total tts_passthrough.
Proof. intros history []; eexists; reflexivity. Qed.

Lemma tts_passthrough_keeps_text (payload : ReplyPayload) (kind : ReplyDispatchKind)
    (params : Params Config TtsAuto) :
  has_text payload = true →
  ∀ history,
    ∃ ttsPayload,
      tts_passthrough history
        (MaybeApplyTtsToPayload payload (cfg params) (ttsChannel params) kind
           (inboundAudio params) (sessionTtsAuto params)) = Returns ttsPayload
      ∧ has_text ttsPayload = true.
Proof. intros H history. exists payload. split; [reflexivity | exact H]. Qed.

(** A call id with surrounding white space: the handle is stored under the
    id as given and looked up under the trimmed id, so the update is not
    edited in place but routed as a new message. *)
Example padded_call_id_is_not_found :
  let w1 := after_first_tool_message imports_edit_ok " call-3" in
  let w2 :=
    snd (deliver imports_edit_ok routed_params tool
           (text_payload "Run command (completed)")
           (Some (tool_meta " call-3" true)) w1) in
  toolMessageByCallId (state w1) !! " call-3" = Some (telegram_handle "tool-msg-1")
  ∧ toolMessageByCallId (state w1) !! "call-3" = None
  ∧ count_calls is_edit (trace w2) = 0
  ∧ count_calls is_routeReply (trace w2) = 2.
Proof. vm_compute. repeat split. Qed.

(** C1 (the claim as stated fails): the handle of call-2 is recorded with
    message id [tool-msg-2], the second delivery has the same id,
    [allowEdit] and text, and the edit action rejects; the delivery then
    calls route-reply, a second time in the turn. *)
Lemma rejected_edit_reaches_route_reply :
  let w1 := after_first_tool_message imports_edit_rejects "call-2" in
  let w2 :=
    snd (deliver imports_edit_rejects routed_params tool
           (text_payload "Run command (completed)")
           (Some (tool_meta "call-2" true)) w1) in
  toolMessageByCallId (state w1) !! "call-2" = Some (telegram_handle "tool-msg-2")
  ∧ count_calls is_edit (trace w2) = 1
  ∧ count_calls is_routeReply (trace w1) = 1
  ∧ count_calls is_routeReply (trace w2) = 2.
Proof. vm_compute. repeat split. Qed.

Lemma edit_before_send_on_test :
  let w1 := after_first_tool_message imports_edit_ok "call-1" in
  toolMessageByCallId (state w1) !! "call-1" = Some (telegram_handle "tool-msg-1")
  ∧ ∃ message history w',
      deliver imports_edit_ok routed_params tool
        (text_payload "Run command (completed)")
        (Some (tool_meta "call-1" true)) w1 = (Returns true, w')
      ∧ trace w'
        = RunMessageAction tt "edit" (telegram_handle "tool-msg-1") message
            (Some "agent:codex-acp:session-1") :: history
      ∧ count_calls is_edit (trace w') = S (count_calls is_edit (trace w1))
      ∧ count_calls is_routeReply (trace w') = count_calls is_routeReply (trace w1)
      ∧ getRoutedCounts w' = bump tool (getRoutedCounts w1).
Proof.
  intros w1. split; [vm_compute; reflexivity|].
  apply (edit_before_send imports_edit_ok routed_params w1
           (text_payload "Run command (completed)") (tool_meta "call-1" true)
           "call-1" "telegram" "telegram:thread-1" (telegram_handle "tool-msg-1")).
  - reflexivity.
  - reflexivity.
  - discriminate.
  - reflexivity.
  - discriminate.
  - reflexivity.
  - vm_compute. reflexivity.
  - discriminate.
  - reflexivity.
  - vm_compute. reflexivity.
  - discriminate.
  - apply callback_total. reflexivity.
  - apply tts_passthrough_keeps_text. vm_compute. reflexivity.
  - apply total_always.
Defined.

(** C2 (the claim as stated fails): with the edit action rejecting, the
    one [deliver] call of the update returns true and has itself called
    route-reply with the update's payload. *)
Lemma rejected_edit_is_resent_by_deliver :
  let w1 := after_first_tool_message imports_edit_rejects "call-2" in
  let update := text_payload "Run command (completed)" in
  let '(result, w2) :=
    deliver imports_edit_rejects routed_params tool update
      (Some (tool_meta "call-2" true)) w1 in
  result = Returns true
  ∧ result ≠ Returns false
  ∧ head (trace w2)
    = Some (RouteReply update "telegram" "telegram:thread-1"
              (Some "agent:codex-acp:session-1") None None tt).
Proof. vm_compute. repeat split. discriminate. Qed.

Lemma edit_failure_falls_back_on_test :
  let w1 := after_first_tool_message imports_edit_rejects "call-2" in
  let update := text_payload "Run command (completed)" in
  toolMessageByCallId (state w1) !! "call-2" = Some (telegram_handle "tool-msg-2")
  ∧ ∃ e message ttsPayload result history w',
      let attempt :=
        RunMessageAction tt "edit" (telegram_handle "tool-msg-2") message
          (Some "agent:codex-acp:session-1") in
      let logged :=
        LogVerbose ("dispatch-acp: tool message edit failed for " +:+ "call-2"
                    +:+ ": " +:+ thrown_text e) in
      let request :=
        RouteReply ttsPayload "telegram" "telegram:thread-1"
          (Some "agent:codex-acp:session-1") None None tt in
      edit_rejects history attempt = Throws e
      ∧ routeReply imports_edit_rejects (logged :: attempt :: history) request
        = Returns result
      ∧ deliver imports_edit_rejects routed_params tool update
          (Some (tool_meta "call-2" true)) w1 = (Returns (ok result), w')
      ∧ (∃ after, trace w' = after ++ request :: logged :: attempt :: history
                  ∧ Forall (λ c, is_log c = true) after)
      ∧ count_calls is_edit (trace w') = S (count_calls is_edit (trace w1))
      ∧ count_calls is_routeReply (trace w')
        = S (count_calls is_routeReply (trace w1)).
Proof.
  intros w1 update. split; [vm_compute; reflexivity|].
  apply (edit_failure_falls_back_to_route_reply imports_edit_rejects routed_params
           w1 update (tool_meta "call-2" true) "call-2" "telegram"
           "telegram:thread-1" (telegram_handle "tool-msg-2")).
  - reflexivity.
  - reflexivity.
  - discriminate.
  - reflexivity.
  - discriminate.
  - reflexivity.
  - vm_compute. reflexivity.
  - discriminate.
  - reflexivity.
  - vm_compute. reflexivity.
  - discriminate.
  - apply callback_total. reflexivity.
  - apply tts_passthrough_keeps_text. vm_compute. reflexivity.
  - intros history c. exists (ErrorObject "edit unsupported"). reflexivity.
  - intros history c. eexists. reflexivity.
Defined.

Lemma hidden_deliveries :
  Forall hidden
    [Deliver tool empty_payload None;
     Deliver final {| text := Some "  "; mediaUrl := Some ""; mediaUrls := Some [] |}
       None].
Proof.
  repeat constructor; eexists _, _, _;
    (split; [reflexivity | split; vm_compute; reflexivity]).
Qed.

Lemma reply_start_on_first_visible_delivery_on_test :
  let quiet :=
    [Deliver tool empty_payload None;
     Deliver final {| text := Some "  "; mediaUrl := Some ""; mediaUrls := Some [] |}
       None] in
  let picture := Deliver block (media_payload "https://example.test/a.png") None in
  let words := Deliver block (text_payload "visible") None in
  let calls ops :=
    count_calls is_onReplyStart
      (trace (perform_all imports_edit_ok direct_params ops fresh)) in
  calls quiet = 0
  ∧ (calls (quiet ++ [picture]) = 1
     ∧ calls (quiet ++ picture :: [Deliver final (text_payload "more") None]) = 1)
  ∧ (calls (quiet ++ [words]) = 1
     ∧ calls (quiet ++ words :: [StartReplyLifecycle]) = 1).
Proof.
  intros quiet picture words calls.
  destruct (reply_start_on_first_visible_delivery imports_edit_ok direct_params)
    as [Hquiet Hfirst].
  split; [apply Hquiet, hidden_deliveries|]. split.
  - destruct (Hfirst quiet block (media_payload "https://example.test/a.png") None
                [Deliver final (text_payload "more") None])
      as (_ & Hone & Hstill).
    + eexists. reflexivity.
    + apply hidden_deliveries.
    + right. reflexivity.
    + split; [exact Hone | exact Hstill].
  - destruct (Hfirst quiet block (text_payload "visible") None [StartReplyLifecycle])
      as (_ & Hone & Hstill).
    + eexists. reflexivity.
    + apply hidden_deliveries.
    + left. vm_compute. reflexivity.
    + split; [exact Hone | exact Hstill].
Defined.

(** C4 (the claim as stated fails): a route-reply sink that throws makes
    [deliver] throw. *)
Lemma throwing_route_reply_escapes_deliver :
  fst (deliver imports_route_rejects routed_params final (text_payload "x") None fresh)
  = Throws (ErrorObject "network down").
Proof. vm_compute. reflexivity. Qed.

Lemma deliver_returns_a_boolean_on_test :
  ∃ accepted : bool,
    fst (deliver imports_edit_rejects routed_params tool
           (text_payload "Run command (completed)")
           (Some (tool_meta "call-2" true))
           (after_first_tool_message imports_edit_rejects "call-2"))
    = Returns accepted.
Proof.
  apply (deliver_returns_a_boolean imports_edit_rejects routed_params).
  - apply callback_total. reflexivity.
  - apply tts_passthrough_total.
  - intros history c. eexists. reflexivity.
  - apply total_always.
  - apply total_always.
  - apply total_always.
Defined.

(** C5 (the claim as stated fails): a line of blanks is not empty and is
    not JSON, and is dropped. *)
Lemma blank_line_is_dropped :
  "   " ≠ ""
  ∧ SampleHost.JSON_parse "   " = None
  ∧ SampleHost.JSON_parse (trim "   ") = None
  ∧ SampleHost.parsePromptEventLine "   " = None.
Proof. repeat split; try discriminate; vm_compute; reflexivity. Qed.

Lemma unparseable_line_is_status_on_test :
  trim "  hello world " ≠ ""
  ∧ SampleHost.JSON_parse (trim "  hello world ") = None
  ∧ SampleHost.parsePromptEventLine "  hello world "
    = Some (Status (trim "  hello world ") None None None).
Proof.
  assert (Hne : trim "  hello world " ≠ "") by (vm_compute; discriminate).
  assert (Hparse : SampleHost.JSON_parse (trim "  hello world ") = None)
    by (vm_compute; reflexivity).
  split; [exact Hne|]. split; [exact Hparse|].
  exact (unparseable_line_is_status SampleHost.Number_isFinite
           SampleHost.Number_toString SampleHost.JSON_parse "  hello world "
           Hne Hparse).
Defined.

Lemma block_accumulation_on_test :
  (let w :=
     perform_all imports_edit_ok direct_params
       [Deliver block (text_payload "a") None; Deliver block (text_payload "b") None]
       fresh in
   getAccumulatedBlockText w = "a" +:+ newline +:+ "b" ∧ getBlockCount w = 2)
  ∧ (let w :=
       perform_all imports_edit_ok direct_params
         [Deliver block (text_payload "a") None] fresh in
     let w' :=
       perform imports_edit_ok direct_params
         (Deliver block (text_payload "  ") None) w in
     getAccumulatedBlockText w' = getAccumulatedBlockText w
     ∧ getBlockCount w' = getBlockCount w)
  ∧ (let w' :=
       perform imports_edit_ok direct_params
         (Deliver block (text_payload "first") None) fresh in
     getAccumulatedBlockText w' = "first" ∧ getBlockCount w' = 1).
Proof.
  destruct (block_accumulation imports_edit_ok direct_params)
    as (Hab & Hblank & Happend).
  split; [|split].
  - apply Hab; reflexivity.
  - apply Hblank. vm_compute. reflexivity.
  - apply (Happend fresh (text_payload "first") None "first");
      [reflexivity | vm_compute; discriminate].
Defined.

Lemma reply_start_fires_once_on_test :
  let calls ops :=
    count_calls is_onReplyStart
      (trace (perform_all imports_edit_ok direct_params ops fresh)) in
  calls [StartReplyLifecycle; Deliver final (text_payload "hello") None;
         StartReplyLifecycle; Deliver block (text_payload "world") None] = 1
  ∧ calls [Deliver final (text_payload "hello") None; StartReplyLifecycle] = 1
  ∧ calls [Deliver final (media_payload "https://example.test/a.png") None] = 1
  ∧ calls [Deliver tool (gallery_payload ["https://example.test/b.png"]) None;
           Deliver block (text_payload " world ") None] = 1
  ∧ calls [Deliver final empty_payload None;
           Deliver block (text_payload "  ") None;
           Deliver tool (media_payload "") None;
           Deliver tool (gallery_payload []) None] = 0.
Proof.
  intros calls. split; [|split; [|split; [|split]]].
  - apply (reply_start_fires_once imports_edit_ok direct_params);
      [eexists; reflexivity | vm_compute; reflexivity].
  - apply (reply_start_fires_once imports_edit_ok direct_params);
      [eexists; reflexivity | vm_compute; reflexivity].
  - apply (reply_start_fires_once imports_edit_ok direct_params);
      [eexists; reflexivity | vm_compute; reflexivity].
  - apply (reply_start_fires_once imports_edit_ok direct_params);
      [eexists; reflexivity | vm_compute; reflexivity].
  - apply (reply_start_fires_once imports_edit_ok direct_params).
    vm_compute. reflexivity.
Defined.

Lemma usage_update_projection_on_test :
  SampleHost.parsePromptEventLine usage_line
  = Some (Status "usage updated: 12/500" (Some "usage_update") (Some 12%Z)
            (Some 500%Z)).
Proof.
  destruct (usage_update_projection SampleHost.Number_isFinite
              SampleHost.Number_toString SampleHost.JSON_parse usage_line
              [("jsonrpc", JStr "2.0"); ("method", JStr "session/update");
               ("params",
                JObj [("sessionId", JStr "s1");
                      ("update",
                       JObj [("sessionUpdate", JStr "usage_update");
                             ("used", JNum 12%Z); ("size", JNum 500%Z)])])]
              [("sessionId", JStr "s1");
               ("update",
                JObj [("sessionUpdate", JStr "usage_update");
                      ("used", JNum 12%Z); ("size", JNum 500%Z)])]
              [("sessionUpdate", JStr "usage_update");
               ("used", JNum 12%Z); ("size", JNum 500%Z)])
    as (text & used & size & Hline & Hused & Hsize & Htext).
  - vm_compute. discriminate.
  - vm_compute. reflexivity.
  - vm_compute. reflexivity.
  - reflexivity.
  - reflexivity.
  - vm_compute. reflexivity.
  - assert (Hu : used = Some 12%Z) by (apply Hused; split; reflexivity).
    assert (Hs : size = Some 500%Z) by (apply Hsize; split; reflexivity).
    subst used size text. exact Hline.
Defined.

(** C9 (the claim as stated fails): on a coordinator that does not route,
    a TTS transform that throws makes [deliver] throw, and no dispatcher
    method is called. *)
Lemma throwing_transform_skips_the_dispatcher :
  shouldRouteToOriginating direct_params = false
  ∧ fst (deliver imports_tts_throws direct_params block (text_payload "hello") None
           fresh)
    = Throws (ErrorObject "tts failed")
  ∧ count_calls is_dispatch
      (trace (snd (deliver imports_tts_throws direct_params block
                     (text_payload "hello") None fresh))) = 0.
Proof. vm_compute. repeat split. Qed.

Lemma direct_dispatch_counts_nothing_on_test :
  let hello := text_payload "hello" in
  let w := snd (deliver imports_edit_ok direct_params block hello None fresh) in
  getRoutedCounts w = zero_counts
  ∧ getRoutedCounts
      (perform_all imports_edit_ok direct_params
         [Deliver block hello None; Deliver final (text_payload "bye") None] fresh)
    = zero_counts
  ∧ ∃ ttsPayload,
      let request := MaybeApplyTtsToPayload hello tt None block false None in
      tts_passthrough [OnReplyStart] request = Returns ttsPayload
      ∧ trace w = [SendBlockReply ttsPayload; request; OnReplyStart]
      ∧ fst (deliver imports_edit_ok direct_params block hello None fresh)
        = sendBlockReply accepting_dispatcher [request; OnReplyStart]
            (SendBlockReply ttsPayload).
Proof.
  intros hello w.
  destruct (direct_dispatch_counts_nothing imports_edit_ok direct_params)
    as (Hone & Hall & Hsink).
  - left. reflexivity.
  - split; [apply (Hone fresh block hello None)|].
    split; [apply Hall|].
    apply (Hsink (callback_total direct_params eq_refl) tts_passthrough_total
             fresh block hello None).
Defined.

(** C10 (the claim as stated fails): an error record without a message gets
    the message ["acpx runtime error"], not ["runtime error"]. *)
Lemma bare_error_message_names_acpx :
  SampleHost.parsePromptEventLine bare_error_line
  = Some (Error "acpx runtime error" None None)
  ∧ SampleHost.parsePromptEventLine bare_error_line
    ≠ Some (Error "runtime error" None None).
Proof. split; [vm_compute; reflexivity | vm_compute; discriminate]. Qed.

Lemma error_default_message_on_test :
  ∃ code retryable,
    SampleHost.parsePromptEventLine
      (quoted "{'type':'error','message':'  ','code':' E42 ','retryable':true}")
    = Some (Error "acpx runtime error" code retryable)
    ∧ code = Some "E42" ∧ retryable = Some true.
Proof.
  destruct (error_default_message SampleHost.Number_isFinite
              SampleHost.Number_toString SampleHost.JSON_parse
              (quoted "{'type':'error','message':'  ','code':' E42 ','retryable':true}")
              [("type", JStr "error"); ("message", JStr "  ");
               ("code", JStr " E42 "); ("retryable", JBool true)])
    as (code & retryable & Hline & Hcode & Hretry).
  - vm_compute. discriminate.
  - vm_compute. reflexivity.
  - vm_compute. reflexivity.
  - vm_compute. reflexivity.
  - exists code, retryable. split; [exact Hline|]. split.
    + apply (Hcode " E42 "); [reflexivity | vm_compute; discriminate].
    + apply (Hretry true). reflexivity.
Defined.

(** ** The further properties on concrete inputs *)

Example parseJsonLines_skips_bad_lines :
  SampleHost.parseJsonLines
    (quoted "{'a':1}" +:+ newline +:+ "oops" +:+ newline +:+ quoted " [1] "
     +:+ String "013" newline +:+ quoted "{'type':'error'}" +:+ newline)
  = [[("a", JNum 1%Z)]; [("type", JStr "error")]].
Proof. vm_compute. reflexivity. Qed.

Lemma non_record_line_is_dropped_on_test :
  SampleHost.parsePromptEventLine "   " = None
  ∧ SampleHost.parsePromptEventLine " [1, 2] " = None.
Proof.
  split.
  - apply (non_record_line_is_dropped SampleHost.Number_isFinite
             SampleHost.Number_toString SampleHost.JSON_parse "   ").
    vm_compute. reflexivity.
  - apply (proj2 (non_record_line_is_dropped SampleHost.Number_isFinite
                    SampleHost.Number_toString SampleHost.JSON_parse " [1, 2] ")
             (JArr [JNum 1%Z; JNum 2%Z])).
    + vm_compute. reflexivity.
    + reflexivity.
Defined.

Lemma unknown_type_is_dropped_on_test :
  SampleHost.parsePromptEventLine (quoted "{'type':'future_event','text':'x'}") = None.
Proof.
  apply (unknown_type_is_dropped SampleHost.Number_isFinite
           SampleHost.Number_toString SampleHost.JSON_parse _
           [("type", JStr "future_event"); ("text", JStr "x")]).
  - vm_compute. reflexivity.
  - vm_compute. intros H. repeat (destruct H as [H|H]; [discriminate|]). exact H.
Defined.

Lemma projected_text_is_never_empty_on_test :
  Forall (λ t, t ≠ "") ["usage updated: 12/500"].
Proof.
  apply (projected_text_is_never_empty SampleHost.Number_isFinite
           SampleHost.Number_toString SampleHost.JSON_parse usage_line
           (Status "usage updated: 12/500" (Some "usage_update") (Some 12%Z)
              (Some 500%Z))).
  vm_compute. reflexivity.
Defined.

Lemma envelope_projects_only_its_update_on_test :
  SampleHost.parsePromptEventLine orphan_envelope_line = None.
Proof.
  apply (envelope_projects_only_its_update SampleHost.Number_isFinite
           SampleHost.Number_toString SampleHost.JSON_parse orphan_envelope_line
           [("method", JStr "session/update"); ("type", JStr "text");
            ("content", JStr "outer");
            ("params", JObj [("update", JObj [("content", JStr "inner")])])]
           [("update", JObj [("content", JStr "inner")])]
           [("content", JStr "inner")]).
  - vm_compute. discriminate.
  - vm_compute. reflexivity.
  - vm_compute. reflexivity.
  - reflexivity.
  - reflexivity.
  - reflexivity.
Defined.

Lemma chunk_text_resolution_on_test :
  resolveTextChunk
    [("content", JObj [("type", JStr "image"); ("text", JStr "x")]);
     ("text", JStr "own")] output "agent_message_chunk"
  = (None : option (AcpRuntimeEvent SampleHost.number))
  ∧ resolveTextChunk
      [("content", JObj [("type", JStr "text"); ("text", JStr " hi ")]);
       ("text", JStr "own")] output "agent_message_chunk"
    = Some (Text_delta " hi " output (Some "agent_message_chunk")
            : AcpRuntimeEvent SampleHost.number)
  ∧ resolveTextChunk [("text", JStr "own")] thought "agent_thought_chunk"
    = Some (Text_delta "own" thought (Some "agent_thought_chunk")
            : AcpRuntimeEvent SampleHost.number).
Proof.
  split; [|split].
  - eapply (proj1 (chunk_text_resolution _ _ _));
      [reflexivity | vm_compute; discriminate | vm_compute; discriminate].
  - eapply (proj1 (proj2 (chunk_text_resolution _ _ _)));
      [reflexivity | right; vm_compute; reflexivity | reflexivity | discriminate].
  - eapply (proj2 (proj2 (chunk_text_resolution _ _ _)));
      [reflexivity | reflexivity | discriminate].
Defined.

Lemma error_events_agree_on_test :
  ∃ m,
    SampleHost.parsePromptEventLine coded_error_line
    = Some (Error m (Some "E1") (Some false))
    ∧ m = "boom".
Proof.
  destruct (error_events_agree SampleHost.Number_isFinite
              SampleHost.Number_toString SampleHost.JSON_parse coded_error_line
              [("type", JStr "error"); ("message", JStr " boom ");
               ("code", JStr "E1"); ("retryable", JBool false)])
    as [Hsome _].
  - vm_compute. discriminate.
  - vm_compute. reflexivity.
  - vm_compute. discriminate.
  - vm_compute. reflexivity.
  - destruct (Hsome {| message := "boom"; code := Some "E1"; retryable := Some false |})
      as (m & Hline & Hmsg).
    + vm_compute. reflexivity.
    + exists m. split; [exact Hline|].
      apply Hmsg. vm_compute. discriminate.
Defined.

Lemma updates_that_are_never_dropped_on_test :
  is_Some (SampleHost.parsePromptEventLine
             (quoted "{'type':'config_option_update'}"))
  ∧ is_Some (SampleHost.parsePromptEventLine (quoted "{'type':'client_operation'}")).
Proof.
  split.
  - apply (updates_that_are_never_dropped SampleHost.Number_isFinite
             SampleHost.Number_toString SampleHost.JSON_parse _
             [("type", JStr "config_option_update")]).
    + vm_compute. discriminate.
    + vm_compute. reflexivity.
    + vm_compute. tauto.
  - apply (updates_that_are_never_dropped SampleHost.Number_isFinite
             SampleHost.Number_toString SampleHost.JSON_parse _
             [("type", JStr "client_operation")]).
    + vm_compute. discriminate.
    + vm_compute. reflexivity.
    + vm_compute. tauto.
Defined.

Lemma sinks_by_configuration_on_test :
  (let w' := snd (deliver imports_edit_ok direct_params tool (text_payload "x")
                    (Some (tool_meta "call-1" true)) fresh) in
   count_calls is_routeReply (trace w') = 0 ∧ count_calls is_edit (trace w') = 0)
  ∧ count_calls is_dispatch
      (trace (snd (deliver imports_edit_ok routed_params block (text_payload "x")
                     None fresh))) = 0.
Proof.
  split.
  - apply (sinks_by_configuration imports_edit_ok direct_params fresh tool
             (text_payload "x") (Some (tool_meta "call-1" true))).
    reflexivity.
  - apply (sinks_by_configuration imports_edit_ok routed_params fresh block
             (text_payload "x") None).
    eexists. reflexivity.
Defined.

Lemma routed_counter_tracks_result_on_test :
  match
    deliver (imports_route_answers (refused None)) routed_params final
      (text_payload "x") None fresh
  with
  | (Returns true, w') => getRoutedCounts w' = bump final (getRoutedCounts fresh)
  | (_, w') => getRoutedCounts w' = getRoutedCounts fresh
  end.
Proof.
  apply (routed_counter_tracks_result (imports_route_answers (refused None))
           routed_params fresh final (text_payload "x") None).
  eexists. reflexivity.
Defined.

Lemma routed_counts_count_accepted_on_test :
  let ops :=
    [Deliver tool (text_payload "Run command (in_progress)")
       (Some (tool_meta "call-1" false));
     Deliver block (text_payload "hello") None;
     Deliver tool (text_payload "Run command (completed)")
       (Some (tool_meta "call-1" true))] in
  let w := perform_all imports_edit_ok routed_params ops fresh in
  count_of tool (getRoutedCounts w) = accepted imports_edit_ok routed_params tool ops fresh
  ∧ count_of tool (applyRoutedCounts w zero_counts)
    = count_of tool zero_counts + accepted imports_edit_ok routed_params tool ops fresh.
Proof.
  intros ops w.
  apply (routed_counts_count_accepted imports_edit_ok routed_params tool ops zero_counts).
  eexists. reflexivity.
Defined.

Lemma handles_are_well_formed_and_stay_on_test :
  let w := after_first_tool_message imports_edit_ok "call-1" in
  is_Some
    (toolMessageByCallId
       (state (perform_all imports_edit_ok routed_params
                 [Deliver final (text_payload "done") None] w)) !! "call-1").
Proof.
  intros w.
  apply (handles_are_well_formed_and_stay imports_edit_ok routed_params
           [Deliver final (text_payload "done") None]).
  vm_compute. eexists. reflexivity.
Defined.

Lemma edit_only_on_request_on_test :
  let w := after_first_tool_message imports_edit_ok " call-3" in
  count_calls is_edit
    (trace (snd (deliver imports_edit_ok routed_params tool
                   (text_payload "Run command (completed)")
                   (Some (tool_meta " call-3" true)) w)))
  = count_calls is_edit (trace w).
Proof.
  intros w.
  apply (edit_only_on_request imports_edit_ok routed_params w tool
           (text_payload "Run command (completed)")
           (Some (tool_meta " call-3" true))).
  right. right. right. exists " call-3". split; [reflexivity|].
  vm_compute. reflexivity.
Defined.

Lemma routed_tool_message_is_remembered_on_test :
  ∃ w',
    deliver (imports_route_answers (routed "m1")) routed_params tool
      (text_payload "Run command (in_progress)") (Some (tool_meta "call-1" false))
      fresh = (Returns true, w')
    ∧ toolMessageByCallId (state w') !! "call-1" = Some (telegram_handle "m1")
    ∧ (∀ other, other ≠ "call-1" →
         toolMessageByCallId (state w') !! other
         = toolMessageByCallId (state fresh) !! other).
Proof.
  apply (routed_tool_message_is_remembered (imports_route_answers (routed "m1"))
           routed_params fresh (text_payload "Run command (in_progress)")
           (tool_meta "call-1" false) "call-1" "m1" "telegram" "telegram:thread-1").
  - reflexivity.
  - reflexivity.
  - discriminate.
  - discriminate.
  - discriminate.
  - apply callback_total. reflexivity.
  - apply tts_passthrough_total.
  - intros history c. eexists. repeat split.
Defined.

Lemma route_failure_is_reported_on_test :
  ∃ result ttsPayload history w',
    let request :=
      RouteReply ttsPayload "telegram" "telegram:thread-1"
        (Some "agent:codex-acp:session-1") None None tt in
    (∃ before,
       let transform :=
         MaybeApplyTtsToPayload (text_payload "x") tt None final false None in
       history = transform :: before
       ∧ tts_passthrough before transform = Returns ttsPayload)
    ∧ routeReply (imports_route_answers (refused None)) history request
      = Returns result
    ∧ deliver (imports_route_answers (refused None)) routed_params final
        (text_payload "x") None fresh = (Returns false, w')
    ∧ trace w'
      = LogVerbose
          ("dispatch-acp: route-reply (acp/" +:+ kind_name final +:+ ") failed: "
           +:+ default "unknown error" (result_error result))
        :: request :: history
    ∧ toolMessageByCallId (state w') = toolMessageByCallId (state fresh)
    ∧ getRoutedCounts w' = getRoutedCounts fresh.
Proof.
  apply (route_failure_is_reported (imports_route_answers (refused None))
           routed_params fresh final (text_payload "x") None "telegram"
           "telegram:thread-1").
  - reflexivity.
  - reflexivity.
  - apply callback_total. reflexivity.
  - apply tts_passthrough_total.
  - intros history c. eexists. split; reflexivity.
Defined.

Lemma throwing_reply_start_stops_delivery_on_test :
  ∃ w',
    deliver imports_edit_ok routed_params_reply_start_throws block
      (text_payload "hello") None fresh
    = (Throws (ErrorObject "typing indicator failed"), w')
    ∧ trace w' = [OnReplyStart]
    ∧ startedReplyLifecycle (state w') = true
    ∧ block_view w' = ("hello", 1).
Proof.
  apply (throwing_reply_start_stops_delivery imports_edit_ok
           routed_params_reply_start_throws fresh block (text_payload "hello") None
           reply_start_throws (ErrorObject "typing indicator failed"));
    reflexivity.
Defined.

Lemma transform_failure_reaches_no_sink_on_test :
  let w' := snd (deliver imports_tts_throws routed_params tool (text_payload "x")
                   None fresh) in
  (∃ e, fst (deliver imports_tts_throws routed_params tool (text_payload "x")
               None fresh) = Throws e)
  ∧ count_calls is_routeReply (trace w') = count_calls is_routeReply (trace fresh)
  ∧ count_calls is_edit (trace w') = count_calls is_edit (trace fresh)
  ∧ count_calls is_dispatch (trace w') = count_calls is_dispatch (trace fresh).
Proof.
  apply (transform_failure_reaches_no_sink imports_tts_throws routed_params fresh
           tool (text_payload "x") None).
  intros history c. eexists. reflexivity.
Defined.

End Examples.
